(** * FFXL-P: feature flag evaluation, embedded from [ffxl.py]

    The Python class [FeatureFlagConfig] works on a configuration that was
    parsed from YAML or JSON: a tree of dynamically typed values.  The
    embedding keeps that dynamic typing.  Python values are the inductive
    type [pyval]; the operators the source applies to them ([in],
    subscripting, [dict.get], truth testing, [==]) are functions that
    return an exception where Python raises one; the methods run in a small
    monad that threads the lines printed by [_log] and propagates
    exceptions.

    [ffxl.py] has no percentage rollout and no environment gate: no method
    takes an environment, and the keys [rollout] and [environments] of a
    feature are never read.  The statements about them are settled on
    [is_feature_enabled] as it is. *)

From Stdlib Require Import ZArith String Ascii List Bool Lia.
From stdpp Require Import base option list strings.
Import ListNotations.

#[local] Set Warnings "-register-all".

Local Open Scope string_scope.
Local Open Scope Z_scope.

(** ** Python values *)

(** The values [yaml.safe_load] and [json.loads] build (floats and dates
    left out, dictionary keys restricted to [str]) together with instances
    of the dataclass [User]. *)
Inductive pyval : Type :=
| PyNone
| PyBool (b : bool)
| PyInt (n : Z)
| PyStr (s : string)
| PyList (items : list pyval)
| PyDict (entries : list (string * pyval))
| PyUser (user_id : pyval).

(** A Python [dict] keeps its keys in insertion order: an association list
    read at the first binding of a key. *)
Fixpoint dict_get {A : Type} (d : list (string * A)) (k : string) : option A :=
  match d with
  | [] => None
  | (k', v) :: d' => if String.eqb k k' then Some v else dict_get d' k
  end.

(** [d[k] = v]: an existing key keeps its position, a new key goes last. *)
Fixpoint dict_set {A : Type} (d : list (string * A)) (k : string) (v : A)
  : list (string * A) :=
  match d with
  | [] => [(k, v)]
  | (k', v') :: d' =>
      if String.eqb k k' then (k', v) :: d' else (k', v') :: dict_set d' k v
  end.

Definition dict_keys {A : Type} (d : list (string * A)) : list string :=
  map fst d.

(** [k in d] *)
Definition dict_mem {A : Type} (d : list (string * A)) (k : string) : bool :=
  match dict_get d k with
  | Some _ => true
  | None => false
  end.

(** [bool(x)] *)
Definition truthy (x : pyval) : bool :=
  match x with
  | PyNone => false
  | PyBool b => b
  | PyInt n => negb (n =? 0)
  | PyStr s => negb (String.eqb s "")
  | PyList items => negb (Nat.eqb (length items) 0)
  | PyDict entries => negb (Nat.eqb (length entries) 0)
  | PyUser _ => true
  end.

(** [x == y].  [bool] is a subtype of [int]; a dataclass compares its
    fields; dictionaries compare as mappings. *)
Fixpoint py_eq (x y : pyval) {struct x} : bool :=
  match x, y with
  | PyNone, PyNone => true
  | PyBool a, PyBool b => Bool.eqb a b
  | PyBool a, PyInt n => Z.b2z a =? n
  | PyInt n, PyBool a => n =? Z.b2z a
  | PyInt a, PyInt b => a =? b
  | PyStr a, PyStr b => String.eqb a b
  | PyList xs, PyList ys =>
      (fix items_eq (xs ys : list pyval) {struct xs} : bool :=
         match xs, ys with
         | [], [] => true
         | x' :: xs', y' :: ys' => py_eq x' y' && items_eq xs' ys'
         | _, _ => false
         end) xs ys
  | PyDict d1, PyDict d2 =>
      Nat.eqb (length d1) (length d2) &&
      (fix entries_eq (d : list (string * pyval)) {struct d} : bool :=
         match d with
         | [] => true
         | (k, v) :: d' =>
             match dict_get d2 k with
             | Some w => py_eq v w
             | None => false
             end && entries_eq d'
         end) d1
  | PyUser a, PyUser b => py_eq a b
  | _, _ => false
  end.

(** [t in s] on two strings: [t] occurs in [s]. *)
Fixpoint substringb (t s : string) : bool :=
  String.prefix t s ||
  match s with
  | EmptyString => false
  | String _ s' => substringb t s'
  end.

(** ** Exceptions *)

Inductive exn : Type := TypeError | KeyError | AttributeError.

Inductive result (A : Type) : Type :=
| Ok (a : A)
| Raise (e : exn).
Arguments Ok {A} a.
Arguments Raise {A} e.

(** [hash(x)] fails on lists, dictionaries and on [User], whose dataclass
    defines [__eq__] and is not frozen. *)
Definition hashable (x : pyval) : bool :=
  match x with
  | PyList _ | PyDict _ | PyUser _ => false
  | _ => true
  end.

(** [x in c] *)
Definition py_in (x c : pyval) : result bool :=
  match c with
  | PyList items => Ok (existsb (py_eq x) items)
  | PyDict entries =>
      if hashable x then
        match x with
        | PyStr k => Ok (dict_mem entries k)
        | _ => Ok false
        end
      else Raise TypeError
  | PyStr s =>
      match x with
      | PyStr t => Ok (substringb t s)
      | _ => Raise TypeError
      end
  | PyNone | PyBool _ | PyInt _ | PyUser _ => Raise TypeError
  end.

(** [c[k]] for a string key [k] *)
Definition py_getitem (c : pyval) (k : string) : result pyval :=
  match c with
  | PyDict entries =>
      match dict_get entries k with
      | Some v => Ok v
      | None => Raise KeyError
      end
  | _ => Raise TypeError
  end.

(** [c.get(k, default)] *)
Definition py_get (c : pyval) (k : string) (default : pyval) : result pyval :=
  match c with
  | PyDict entries =>
      match dict_get entries k with
      | Some v => Ok v
      | None => Ok default
      end
  | _ => Raise AttributeError
  end.

(** ** Printed output and the evaluation monad *)

(** An f-string is kept as its pieces, so that no choice of [str()] or
    [repr()] for nested values enters the model. *)
Inductive fragment : Type :=
| Text (s : string)
| Value (v : pyval).

Definition message : Type := list fragment.

(** A computation reads the lines printed so far and returns a value or an
    exception together with the lines printed after it. *)
Definition M (A : Type) : Type := list message -> result A * list message.

#[export] Instance M_ret : MRet M := fun A a out => (Ok a, out).

#[export] Instance M_bind : MBind M := fun A B f m out =>
  match m out with
  | (Ok a, out') => f a out'
  | (Raise e, out') => (Raise e, out')
  end.

Definition lift {A : Type} (r : result A) : M A := fun out => (r, out).

Definition print (msg : message) : M unit := fun out => (Ok tt, (out ++ [msg])%list).

(** The value a computation returns and what it prints, started on an
    empty output. *)
Definition value_of {A : Type} (m : M A) : result A := fst (m []).
Definition printed {A : Type} (m : M A) : list message := snd (m []).

(** ** [class FeatureFlagConfig] *)

Record FeatureFlagConfig : Type := {
  _config : pyval;
  _dev_mode : bool
}.

Definition _log (self : FeatureFlagConfig) (msg : message) : M unit :=
  if _dev_mode self then print (Text "[FFXL] " :: msg) else mret tt.

(** [feature_name in self._config.get('features', {})] *)
Definition feature_exists (self : FeatureFlagConfig) (feature_name : string)
  : M bool :=
  features ← lift (py_get (_config self) "features" (PyDict []));
  lift (py_in (PyStr feature_name) features).

(** Lines 59 to 64 of [is_feature_enabled]: the identity read from the
    [user] argument, [None] when there is none. *)
Definition extract_user_id (user : pyval) : result pyval :=
  if truthy user then
    match user with
    | PyUser uid => Ok uid
    | PyDict entries =>
        if dict_mem entries "user_id"
        then py_getitem user "user_id"
        else Ok PyNone
    | _ => Ok PyNone
    end
  else Ok PyNone.

Definition is_feature_enabled (self : FeatureFlagConfig)
    (feature_name : string) (user : pyval) : M pyval :=
  found ← feature_exists self feature_name;
  if negb found then
    _log self [Text "Feature '"; Value (PyStr feature_name);
               Text "' does not exist"];;
    mret (PyBool false)
  else
    features ← lift (py_getitem (_config self) "features");
    feature ← lift (py_getitem features feature_name);
    user_id ← lift (extract_user_id user);
    has_key ← lift (py_in (PyStr "onlyForUserIds") feature);
    restricted ←
      (if (has_key : bool)
       then v ← lift (py_getitem feature "onlyForUserIds"); mret (truthy v)
       else mret false);
    if (restricted : bool) then
      only_for_users ← lift (py_getitem feature "onlyForUserIds");
      is_enabled ← lift (py_in user_id only_for_users);
      _log self [Text "Feature '"; Value (PyStr feature_name);
                 Text "' is user-specific: "; Value (PyBool is_enabled);
                 Text " for user '"; Value user_id; Text "'"];;
      mret (PyBool is_enabled)
    else
      is_enabled ← lift (py_get feature "enabled" (PyBool false));
      _log self [Text "Feature '"; Value (PyStr feature_name);
                 Text "' is globally ";
                 Text (if truthy is_enabled then "enabled" else "disabled")];;
      mret is_enabled.

(** [any(self.is_feature_enabled(name, user) for name in feature_names)]:
    the generator is consumed up to the first truthy result. *)
Fixpoint is_any_feature_enabled (self : FeatureFlagConfig)
    (feature_names : list string) (user : pyval) : M bool :=
  match feature_names with
  | [] => mret false
  | name :: rest =>
      v ← is_feature_enabled self name user;
      if truthy v then mret true
      else is_any_feature_enabled self rest user
  end.

(** [all(self.is_feature_enabled(name, user) for name in feature_names)]:
    the generator is consumed up to the first falsy result. *)
Fixpoint are_all_features_enabled (self : FeatureFlagConfig)
    (feature_names : list string) (user : pyval) : M bool :=
  match feature_names with
  | [] => mret true
  | name :: rest =>
      v ← is_feature_enabled self name user;
      if truthy v then are_all_features_enabled self rest user
      else mret false
  end.

(** The dictionary comprehension of [get_feature_flags], entry by entry
    into the dictionary built so far. *)
Fixpoint feature_flags_into (self : FeatureFlagConfig)
    (feature_names : list string) (user : pyval)
    (acc : list (string * pyval)) : M (list (string * pyval)) :=
  match feature_names with
  | [] => mret acc
  | name :: rest =>
      v ← is_feature_enabled self name user;
      feature_flags_into self rest user (dict_set acc name v)
  end.

Definition get_feature_flags (self : FeatureFlagConfig)
    (feature_names : list string) (user : pyval) : M pyval :=
  d ← feature_flags_into self feature_names user [];
  mret (PyDict d).

(** ** Configurations of the shape the documentation describes *)

(** The mapping [self._config.get('features', {})] when the configuration
    is a dictionary and that value is one. *)
Definition features_mapping (config : pyval)
  : option (list (string * pyval)) :=
  match config with
  | PyDict entries =>
      match dict_get entries "features" with
      | None => Some []
      | Some (PyDict features) => Some features
      | Some _ => None
      end
  | _ => None
  end.

Definition is_str (v : pyval) : bool :=
  match v with PyStr _ => true | _ => false end.

(** A feature is a dictionary; [enabled], when given, is a boolean and
    [onlyForUserIds], when given, a list of strings.  Other keys are
    free. *)
Definition wf_feature (feature : pyval) : bool :=
  match feature with
  | PyDict entries =>
      match dict_get entries "onlyForUserIds" with
      | None => true
      | Some (PyList ids) => forallb is_str ids
      | Some _ => false
      end &&
      match dict_get entries "enabled" with
      | None | Some (PyBool _) => true
      | Some _ => false
      end
  | _ => false
  end.

Definition wf_config (config : pyval) : bool :=
  match features_mapping config with
  | Some features => forallb (fun kv => wf_feature (snd kv)) features
  | None => false
  end.

(** The names of a list in the order of their first occurrence: the key
    order of a dictionary filled from that list. *)
Fixpoint first_occurrences (names : list string) : list string :=
  match names with
  | [] => []
  | n :: rest =>
      n :: filter (fun m => m <> n) (first_occurrences rest)
  end.

(** ** A configuration for the calls of [example.py] *)

Module Demo.

(** The features [example.py] asks for, as [yaml.safe_load] would return
    them. *)
Definition features : list (string * pyval) :=
  [ ("new_dashboard", PyDict [("enabled", PyBool true)]);
    ("beta_feature", PyDict [("enabled", PyBool false)]);
    ("admin_panel",
      PyDict [("enabled", PyBool true);
              ("onlyForUserIds",
                PyList [PyStr "user-123"; PyStr "user-456"])]);
    ("dark_mode", PyDict [("enabled", PyBool true)]);
    ("experimental_api", PyDict [("onlyForUserIds", PyList [])]) ].

(** [FeatureFlagConfig(config)] with [FFXL_DEV_MODE=true]. *)
Definition config : FeatureFlagConfig :=
  {| _config := PyDict [("features", PyDict features)];
     _dev_mode := true |}.

Definition admin_user : pyval := PyUser (PyStr "user-123").
Definition regular_user : pyval := PyUser (PyStr "user-789").
Definition user_dict : pyval := PyDict [("user_id", PyStr "user-456")].

End Demo.

(** ** A configuration for the calls of [ffxl_p/example_rollout.py] *)

Module RolloutDemo.

(** Features with a rollout rule and an environment restriction, under
    the keys [rollout.percentage] and [environments], as
    [yaml.safe_load] would return them. *)
Definition features : list (string * pyval) :=
  [ ("new_payment_system",
      PyDict [("enabled", PyBool true);
              ("rollout", PyDict [("percentage", PyInt 10)])]);
    ("redesigned_ui",
      PyDict [("enabled", PyBool true);
              ("environments", PyList [PyStr "staging"; PyStr "production"]);
              ("rollout", PyDict [("percentage", PyInt 100)])]);
    ("rollout_at_zero",
      PyDict [("enabled", PyBool true);
              ("rollout", PyDict [("percentage", PyInt 0)])]);
    ("rollout_at_full",
      PyDict [("enabled", PyBool false);
              ("rollout", PyDict [("percentage", PyInt 100)])]) ].

Definition config : FeatureFlagConfig :=
  {| _config := PyDict [("features", PyDict features)];
     _dev_mode := false |}.

Definition user_789 : pyval := PyUser (PyStr "user-789").

End RolloutDemo.

(** ** The rest of [class FeatureFlagConfig] *)

(** [c.keys()], as the list [list(...)] makes of it *)
Definition py_keys (c : pyval) : result (list string) :=
  match c with
  | PyDict entries => Ok (dict_keys entries)
  | _ => Raise AttributeError
  end.

(** [list(self._config.get('features', {}).keys())] *)
Definition get_all_feature_names (self : FeatureFlagConfig)
  : M (list string) :=
  features ← lift (py_get (_config self) "features" (PyDict []));
  lift (py_keys features).

(** The list comprehension of [get_enabled_features] over the names it
    iterates: each name is evaluated in turn and kept when the result is
    truthy. *)
Fixpoint enabled_among (self : FeatureFlagConfig) (names : list string)
    (user : pyval) : M (list string) :=
  match names with
  | [] => mret []
  | name :: rest =>
      v ← is_feature_enabled self name user;
      kept ← enabled_among self rest user;
      mret (if truthy v then name :: kept else kept)
  end.

Definition get_enabled_features (self : FeatureFlagConfig) (user : pyval)
  : M (list string) :=
  names ← get_all_feature_names self;
  enabled_among self names user.

(** [self._config.get('features', {}).get(feature_name)] *)
Definition get_feature_config (self : FeatureFlagConfig)
    (feature_name : string) : M pyval :=
  features ← lift (py_get (_config self) "features" (PyDict []));
  lift (py_get features feature_name PyNone).

(** ** Loading, and the functions of the module *)

(** What the loader reads from outside the program: the environment
    variables, the file system, and the two parsers it calls.
    [yaml_load_file] stands for [open(path)] followed by [yaml.safe_load],
    [None] when either raises; [json_loads] is [None] on
    [JSONDecodeError]. *)
Record Runtime : Type := {
  getenv : string -> option string;
  path_exists : string -> bool;
  yaml_load_file : string -> option pyval;
  json_loads : string -> option pyval
}.

Inductive load_error : Type :=
| FileNotFoundError (path : string)
| ReadError.

(** [str.lower()] on the letters A to Z; other bytes are kept. *)
Definition lower_ascii (c : ascii) : ascii :=
  let n := nat_of_ascii c in
  if (Nat.leb 65 n && Nat.leb n 90)%bool then ascii_of_nat (n + 32) else c.

Fixpoint lower (s : string) : string :=
  match s with
  | EmptyString => EmptyString
  | String c s' => String (lower_ascii c) (lower s')
  end.

(** [os.getenv('FFXL_DEV_MODE', '').lower() in ('true', '1', 'yes')].
    The three words are ASCII, so only the lowering of A to Z can make
    the value equal to one of them. *)
Definition dev_mode_of (rt : Runtime) : bool :=
  let v := lower (default "" (getenv rt "FFXL_DEV_MODE")) in
  String.eqb v "true" || String.eqb v "1" || String.eqb v "yes".

(** [FeatureFlagConfig(config)] *)
Definition __init__ (rt : Runtime) (config : pyval) : FeatureFlagConfig :=
  {| _config := config; _dev_mode := dev_mode_of rt |}.

(** [a or b] on an optional string [a]: [None] and the empty string are
    falsy. *)
Definition or_else (a : option string) (b : string) : string :=
  match a with
  | Some s => if String.eqb s "" then b else s
  | None => b
  end.

(** [load_feature_flags(file_path)].  The global [_global_config] of the
    module is passed in and returned beside the result.  A configuration
    in [FFXL_CONFIG] that parses as JSON is taken first; otherwise the
    file at the path of the argument, of [FFXL_FILE], of
    [FEATURE_FLAGS_FILE] or at the default path is read. *)
Definition load_feature_flags (rt : Runtime) (file_path : option string)
    (_global_config : option FeatureFlagConfig)
  : (load_error + pyval) * option FeatureFlagConfig :=
  let path :=
    match file_path with
    | Some p => p
    | None =>
        or_else (getenv rt "FFXL_FILE")
          (or_else (getenv rt "FEATURE_FLAGS_FILE") "./feature-flags.yaml")
    end in
  let from_file :=
    if path_exists rt path then
      match yaml_load_file rt path with
      | Some config => (inr config, Some (__init__ rt config))
      | None => (inl ReadError, _global_config)
      end
    else (inl (FileNotFoundError path), _global_config) in
  match getenv rt "FFXL_CONFIG" with
  | Some env_config =>
      if String.eqb env_config "" then from_file
      else
        match json_loads rt env_config with
        | Some config => (inr config, Some (__init__ rt config))
        | None => from_file
        end
  | None => from_file
  end.

(** [_get_config()]: the global after a load when it was [None]. *)
Definition _get_config (rt : Runtime)
    (_global_config : option FeatureFlagConfig)
  : (load_error + option FeatureFlagConfig) * option FeatureFlagConfig :=
  match _global_config with
  | Some _ => (inr _global_config, _global_config)
  | None =>
      match load_feature_flags rt None _global_config with
      | (inr _, g) => (inr g, g)
      | (inl e, g) => (inl e, g)
      end
  end.

(** How a function of the module ends: with a value, with an exception of
    the evaluation, or with an exception of the loader. *)
Inductive outcome (A : Type) : Type :=
| Returned (a : A)
| Raised (e : exn)
| LoadFailed (e : load_error).
Arguments Returned {A} a.
Arguments Raised {A} e.
Arguments LoadFailed {A} e.

(** The process: the global of the module and the lines printed. *)
Record process : Type := {
  global_config : option FeatureFlagConfig;
  stdout : list message
}.

Definition outcome_of {A : Type} (r : result A) : outcome A :=
  match r with
  | Ok a => Returned a
  | Raise e => Raised e
  end.

(** [_get_config().method(...)]; calling a method on [None] raises
    [AttributeError]. *)
Definition on_config {A : Type} (method : FeatureFlagConfig -> M A)
    (rt : Runtime) (p : process) : outcome A * process :=
  match _get_config rt (global_config p) with
  | (inl e, g) => (LoadFailed e, {| global_config := g; stdout := stdout p |})
  | (inr None, g) =>
      (Raised AttributeError, {| global_config := g; stdout := stdout p |})
  | (inr (Some config), g) =>
      let (r, out) := method config (stdout p) in
      (outcome_of r, {| global_config := g; stdout := out |})
  end.

Module Api.

Definition is_feature_enabled (rt : Runtime) (feature_name : string)
    (user : pyval) : process -> outcome pyval * process :=
  on_config (fun c => is_feature_enabled c feature_name user) rt.

Definition is_any_feature_enabled (rt : Runtime)
    (feature_names : list string) (user : pyval)
  : process -> outcome bool * process :=
  on_config (fun c => is_any_feature_enabled c feature_names user) rt.

Definition are_all_features_enabled (rt : Runtime)
    (feature_names : list string) (user : pyval)
  : process -> outcome bool * process :=
  on_config (fun c => are_all_features_enabled c feature_names user) rt.

Definition get_enabled_features (rt : Runtime) (user : pyval)
  : process -> outcome (list string) * process :=
  on_config (fun c => get_enabled_features c user) rt.

Definition get_feature_flags (rt : Runtime) (feature_names : list string)
    (user : pyval) : process -> outcome pyval * process :=
  on_config (fun c => get_feature_flags c feature_names user) rt.

Definition feature_exists (rt : Runtime) (feature_name : string)
  : process -> outcome bool * process :=
  on_config (fun c => feature_exists c feature_name) rt.

Definition get_all_feature_names (rt : Runtime)
  : process -> outcome (list string) * process :=
  on_config get_all_feature_names rt.

Definition get_feature_config (rt : Runtime) (feature_name : string)
  : process -> outcome pyval * process :=
  on_config (fun c => get_feature_config c feature_name) rt.

End Api.

(** A runtime for the examples: no environment variable is set and the
    default file holds the configuration of [Demo]. *)
Definition demo_runtime : Runtime :=
  {| getenv := fun _ => None;
     path_exists := fun p => String.eqb p "./feature-flags.yaml";
     yaml_load_file := fun p =>
       if String.eqb p "./feature-flags.yaml"
       then Some (PyDict [("features", PyDict Demo.features)])
       else None;
     json_loads := fun _ => None |}.

(** ** Notions used in the statements *)

(** Two computations return the same value or raise the same exception,
    whatever was printed before each of them. *)
Definition same_value {A : Type} (m1 m2 : M A) : Prop :=
  forall out1 out2, fst (m1 out1) = fst (m2 out2).

(** What [is_feature_enabled] returns. *)
Definition enabled_value (self : FeatureFlagConfig) (name : string)
    (user : pyval) : result pyval :=
  value_of (is_feature_enabled self name user).

(** [flag] gives, for each name of a list, the boolean its evaluation
    returns, whatever was printed before. *)
Definition flag_of (self : FeatureFlagConfig) (user : pyval)
    (flag : string -> bool) (names : list string) : Prop :=
  forall n out, In n names ->
    exists out',
      is_feature_enabled self n user out = (Ok (PyBool (flag n)), out').

(** The dictionary that receives, for the names of a list in turn, the
    value [val] gives them. *)
Definition filled (val : string -> pyval) (names : list string)
    (acc : list (string * pyval)) : list (string * pyval) :=
  fold_left (fun a n => dict_set a n (val n)) names acc.

(** * Properties *)

Example admin_panel_for_admin :
  value_of (is_feature_enabled Demo.config "admin_panel"
              Demo.admin_user) = Ok (PyBool true).
Proof. reflexivity. Qed.

Example admin_panel_for_regular_user :
  value_of (is_feature_enabled Demo.config "admin_panel"
              Demo.regular_user) = Ok (PyBool false).
Proof. reflexivity. Qed.

Example admin_panel_for_user_dict :
  value_of (is_feature_enabled Demo.config "admin_panel"
              Demo.user_dict) = Ok (PyBool true).
Proof. reflexivity. Qed.

Example admin_panel_log :
  printed (is_feature_enabled Demo.config "admin_panel" PyNone) =
  [[Text "[FFXL] "; Text "Feature '"; Value (PyStr "admin_panel");
    Text "' is user-specific: "; Value (PyBool false);
    Text " for user '"; Value PyNone; Text "'"]].
Proof. reflexivity. Qed.

Example flags_for_admin :
  value_of (get_feature_flags Demo.config
              ["new_dashboard"; "admin_panel"; "dark_mode"; "new_dashboard"]
              Demo.admin_user) =
  Ok (PyDict [("new_dashboard", PyBool true); ("admin_panel", PyBool true);
              ("dark_mode", PyBool true)]).
Proof. reflexivity. Qed.

(** [ffxl.py] reads the keys [onlyForUserIds] and [enabled] only: a feature
    with a rollout rule and an environment restriction is decided by its
    [enabled] flag there. *)
Example ffxl_py_reads_no_rollout_key :
  value_of
    (is_feature_enabled
       {| _config :=
            PyDict
              [("features",
                 PyDict
                   [("new_payment_system",
                      PyDict
                        [("enabled", PyBool true);
                         ("environments", PyList [PyStr "production"]);
                         ("rollout", PyDict [("percentage", PyInt 0)])])])];
          _dev_mode := false |}
       "new_payment_system" PyNone) = Ok (PyBool true).
Proof. reflexivity. Qed.

Example configuration_none_raises :
  value_of (feature_exists {| _config := PyNone; _dev_mode := false |} "x")
  = Raise AttributeError.
Proof. reflexivity. Qed.

(** ** The evaluation monad *)

Lemma same_value_bind {A B : Type} (m1 m2 : M A) (k1 k2 : A -> M B) :
  same_value m1 m2 -> (forall a, same_value (k1 a) (k2 a)) ->
  same_value (m1 ≫= k1) (m2 ≫= k2).
Proof.
  intros Hm Hk out1 out2. unfold mbind, M_bind.
  specialize (Hm out1 out2).
  destruct (m1 out1) as [[a|e] o1], (m2 out2) as [[b|e'] o2];
    simpl in Hm; inversion Hm; subst; [apply Hk | reflexivity].
Qed.

Lemma same_value_lift {A : Type} (r : result A) : same_value (lift r) (lift r).
Proof. intros out1 out2. reflexivity. Qed.

Lemma same_value_ret {A : Type} (a : A) : same_value (mret a) (mret a).
Proof. intros out1 out2. reflexivity. Qed.

Lemma same_value_log (self1 self2 : FeatureFlagConfig) (msg1 msg2 : message) :
  same_value (_log self1 msg1) (_log self2 msg2).
Proof.
  intros out1 out2. unfold _log.
  destruct (_dev_mode self1), (_dev_mode self2); reflexivity.
Qed.

Ltac same_value :=
  repeat first
    [ apply same_value_lift | apply same_value_ret | apply same_value_log
    | apply same_value_bind; [ | intros ]
    | match goal with
      | |- same_value (if ?b then _ else _) (if ?b then _ else _) => destruct b
      end ].

Lemma is_feature_enabled_same_value (self1 self2 : FeatureFlagConfig)
    (name : string) (user : pyval) :
  _config self1 = _config self2 ->
  same_value (is_feature_enabled self1 name user)
             (is_feature_enabled self2 name user).
Proof.
  intros Hc. unfold is_feature_enabled, feature_exists. rewrite Hc.
  apply same_value_bind; [ same_value | intros found ].
  destruct (negb found); same_value.
Qed.

Lemma is_feature_enabled_fst (self : FeatureFlagConfig) (name : string)
    (user : pyval) (out : list message) :
  fst (is_feature_enabled self name user out) = enabled_value self name user.
Proof. apply is_feature_enabled_same_value. reflexivity. Qed.

Lemma features_mapping_lookup (config : pyval) (fs : list (string * pyval))
    (name : string) (feature : pyval) :
  features_mapping config = Some fs -> dict_get fs name = Some feature ->
  exists c, config = PyDict c /\ dict_get c "features" = Some (PyDict fs).
Proof.
  unfold features_mapping. intros Hm Hf.
  destruct config as [ | | | | | c | ]; try discriminate.
  exists c. split; [ reflexivity | ].
  destruct (dict_get c "features") as [ [ | | | | | fs' | ] | ];
    try discriminate; inversion Hm; subst; [ reflexivity | discriminate ].
Qed.

Lemma enabled_value_silent (self : FeatureFlagConfig) (name : string)
    (user : pyval) :
  enabled_value self name user =
  enabled_value {| _config := _config self; _dev_mode := false |} name user.
Proof. apply is_feature_enabled_same_value. reflexivity. Qed.

Ltac run_silent :=
  rewrite ?is_feature_enabled_fst; rewrite enabled_value_silent;
  unfold enabled_value, value_of, is_feature_enabled, feature_exists, _log;
  cbn [_config _dev_mode]; unfold mbind, M_bind, mret, M_ret, lift.

Lemma extract_user_id_total (user : pyval) :
  exists uid, extract_user_id user = Ok uid.
Proof.
  unfold extract_user_id. destruct (truthy user); [ | eauto ].
  destruct user; eauto.
  unfold dict_mem, py_getitem.
  destruct (dict_get entries "user_id"); eauto.
Qed.

Lemma enabled_value_restricted (self : FeatureFlagConfig) (name : string)
    (fs f : list (string * pyval)) (v uid user : pyval) :
  features_mapping (_config self) = Some fs ->
  dict_get fs name = Some (PyDict f) ->
  dict_get f "onlyForUserIds" = Some v -> truthy v = true ->
  extract_user_id user = Ok uid ->
  enabled_value self name user =
  match py_in uid v with Ok b => Ok (PyBool b) | Raise e => Raise e end.
Proof.
  intros Hm Hf Hv Ht Hu.
  destruct (features_mapping_lookup _ _ _ _ Hm Hf) as (c & Hc & Hfs).
  run_silent. rewrite Hc.
  repeat (progress (cbn; unfold dict_mem; rewrite ?Hfs, ?Hf, ?Hu, ?Hv, ?Ht)).
  destruct (py_in uid v); reflexivity.
Qed.

Lemma enabled_value_global (self : FeatureFlagConfig) (name : string)
    (fs f : list (string * pyval)) (user : pyval) :
  features_mapping (_config self) = Some fs ->
  dict_get fs name = Some (PyDict f) ->
  match dict_get f "onlyForUserIds" with
  | Some v => truthy v = false
  | None => True
  end ->
  enabled_value self name user =
  Ok (default (PyBool false) (dict_get f "enabled")).
Proof.
  intros Hm Hf Hv.
  destruct (features_mapping_lookup _ _ _ _ Hm Hf) as (c & Hc & Hfs).
  destruct (extract_user_id_total user) as [uid Hu].
  run_silent. rewrite Hc.
  repeat (progress (cbn; unfold dict_mem; rewrite ?Hfs, ?Hf, ?Hu)).
  destruct (dict_get f "onlyForUserIds") as [v|]; [ rewrite Hv | ]; cbn;
    destruct (dict_get f "enabled"); reflexivity.
Qed.

Lemma enabled_value_unknown (self : FeatureFlagConfig) (name : string)
    (fs : list (string * pyval)) (user : pyval) :
  features_mapping (_config self) = Some fs ->
  dict_get fs name = None ->
  enabled_value self name user = Ok (PyBool false).
Proof.
  intros Hm Hf. run_silent.
  unfold features_mapping in Hm.
  destruct (_config self) as [ | | | | | c | ]; try discriminate.
  cbn [py_get].
  destruct (dict_get c "features") as [ [ | | | | | fs' | ] | ];
    try discriminate; inversion Hm; subst; cbn; unfold dict_mem;
    rewrite ?Hf; reflexivity.
Qed.

Lemma py_eq_str (x : pyval) (s : string) :
  py_eq x (PyStr s) = true <-> x = PyStr s.
Proof.
  destruct x; simpl; split; try discriminate; intros H.
  - apply String.eqb_eq in H. congruence.
  - inversion H. apply String.eqb_refl.
Qed.

Lemma in_str_list (x : pyval) (ids : list string) :
  existsb (py_eq x) (map PyStr ids) = true <->
  exists u, x = PyStr u /\ In u ids.
Proof.
  rewrite existsb_exists. split.
  - intros (y & Hy & He). apply in_map_iff in Hy as (u & <- & Hu).
    apply py_eq_str in He. eauto.
  - intros (u & -> & Hu). exists (PyStr u). split.
    + apply in_map. exact Hu.
    + apply py_eq_str. reflexivity.
Qed.


Lemma dict_get_In {A : Type} (d : list (string * A)) (k : string) (v : A) :
  dict_get d k = Some v -> In (k, v) d.
Proof.
  induction d as [ | [k' v'] d IH ]; simpl; [ discriminate | ].
  destruct (String.eqb_spec k k') as [ -> | _ ].
  - intros [= ->]. left. reflexivity.
  - intros H. right. apply IH, H.
Qed.

(** On a configuration of the documented shape no evaluation raises, and
    the result is a boolean. *)
Lemma wf_enabled_value (self : FeatureFlagConfig) (name : string)
    (user : pyval) :
  wf_config (_config self) = true ->
  exists b, enabled_value self name user = Ok (PyBool b).
Proof.
  unfold wf_config. intros Hwf.
  destruct (features_mapping (_config self)) as [fs | ] eqn:Hm;
    [ | discriminate ].
  destruct (dict_get fs name) as [feature | ] eqn:Hf.
  - rewrite forallb_forall in Hwf.
    specialize (Hwf _ (dict_get_In _ _ _ Hf)). simpl in Hwf.
    destruct feature as [ | | | | | f | ]; try discriminate.
    simpl in Hwf. apply andb_prop in Hwf as [Hids Hen].
    assert (Hbool : exists b,
               default (PyBool false) (dict_get f "enabled") = PyBool b).
    { destruct (dict_get f "enabled") as [ [ | b | | | | | ] | ];
        try discriminate; simpl; eauto. }
    destruct Hbool as [b Hb].
    destruct (dict_get f "onlyForUserIds") as [v | ] eqn:Hv.
    + destruct (truthy v) eqn:Ht.
      * destruct (extract_user_id_total user) as [uid Hu].
        rewrite (enabled_value_restricted self name fs f v uid user)
          by assumption.
        destruct v; try discriminate. simpl. eauto.
      * exists b. rewrite <- Hb.
        apply (enabled_value_global self name fs f user); try assumption.
        rewrite Hv. exact Ht.
    + exists b. rewrite <- Hb.
      apply (enabled_value_global self name fs f user); try assumption.
      rewrite Hv. exact I.
  - exists false. apply (enabled_value_unknown self name fs); assumption.
Qed.

Lemma wf_run (self : FeatureFlagConfig) (name : string) (user : pyval)
    (out : list message) :
  wf_config (_config self) = true ->
  exists b out',
    is_feature_enabled self name user out = (Ok (PyBool b), out') /\
    enabled_value self name user = Ok (PyBool b).
Proof.
  intros Hwf. destruct (wf_enabled_value self name user Hwf) as [b Hb].
  pose proof (is_feature_enabled_fst self name user out) as Hfst.
  destruct (is_feature_enabled self name user out) as [r out'].
  simpl in Hfst. exists b, out'. split; congruence.
Qed.

(** ** The allow-list *)

(** C4. When the [onlyForUserIds] of a feature is a non-empty list of
    identifiers, [is_feature_enabled] returns the boolean that tells
    whether the identity of the [user] argument is in that list, and
    [False] when there is no identity; the other keys of the feature
    ([enabled], [environments], [rollout], anything else) are arbitrary
    and have no influence. *)
Theorem allowlist_decides (self : FeatureFlagConfig) (name : string)
    (fs f : list (string * pyval)) (ids : list string) (user : pyval)
    (out : list message) :
  features_mapping (_config self) = Some fs ->
  dict_get fs name = Some (PyDict f) ->
  dict_get f "onlyForUserIds" = Some (PyList (map PyStr ids)) ->
  ids <> [] ->
  exists b,
    fst (is_feature_enabled self name user out) = Ok (PyBool b) /\
    (b = true <->
     exists u, extract_user_id user = Ok (PyStr u) /\ In u ids) /\
    (extract_user_id user = Ok PyNone -> b = false).
Proof.
  intros Hm Hf Hids Hne.
  destruct (extract_user_id_total user) as [uid Hu].
  exists (existsb (py_eq uid) (map PyStr ids)). split; [ | split ].
  - rewrite is_feature_enabled_fst.
    rewrite (enabled_value_restricted self name fs f _ uid user Hm Hf Hids);
      [ reflexivity | | exact Hu ].
    destruct ids; [ congruence | reflexivity ].
  - rewrite in_str_list, Hu. split.
    + intros (u & -> & Hin). eauto.
    + intros (u & [= ->] & Hin). eauto.
  - rewrite Hu. intros [= ->].
    apply not_true_is_false. rewrite in_str_list.
    intros (u & Habs & _). discriminate.
Qed.

Lemma allowlist_decides_witness :
  exists b,
    fst (is_feature_enabled Demo.config "admin_panel"
           Demo.user_dict []) = Ok (PyBool b) /\
    (b = true <->
     exists u, extract_user_id Demo.user_dict = Ok (PyStr u) /\
               In u ["user-123"; "user-456"]) /\
    (extract_user_id Demo.user_dict = Ok PyNone -> b = false).
Proof.
  apply (allowlist_decides Demo.config "admin_panel" Demo.features
           [("enabled", PyBool true);
            ("onlyForUserIds", PyList [PyStr "user-123"; PyStr "user-456"])]
           ["user-123"; "user-456"] Demo.user_dict []).
  - reflexivity.
  - reflexivity.
  - reflexivity.
  - discriminate.
Defined.

(** ** Determinism *)

(** C6. For a fixed configuration, feature name and user, every call of
    [is_feature_enabled] returns the same result: neither the development
    mode read from the process environment nor what was printed before
    the call changes it, and two calls in a row agree. *)
Theorem evaluation_is_deterministic (config : pyval) (name : string)
    (user : pyval) :
  (forall (dev1 dev2 : bool) (out1 out2 : list message),
      fst (is_feature_enabled {| _config := config; _dev_mode := dev1 |}
             name user out1) =
      fst (is_feature_enabled {| _config := config; _dev_mode := dev2 |}
             name user out2)) /\
  (forall (dev : bool) (out : list message),
      let self := {| _config := config; _dev_mode := dev |} in
      match fst ((r1 ← is_feature_enabled self name user;
                  r2 ← is_feature_enabled self name user;
                  mret (r1, r2)) out) with
      | Ok (r1, r2) => r1 = r2
      | Raise e => fst (is_feature_enabled self name user out) = Raise e
      end).
Proof.
  split.
  - intros dev1 dev2.
    apply is_feature_enabled_same_value. reflexivity.
  - intros dev out self. unfold mbind, M_bind, mret, M_ret.
    destruct (is_feature_enabled self name user out) as [[r1 | e] out1] eqn:E1;
      [ | reflexivity ].
    pose proof (is_feature_enabled_same_value self self name user eq_refl
                  out out1) as Hsame.
    rewrite E1 in Hsame. simpl in Hsame.
    destruct (is_feature_enabled self name user out1) as [[r2 | e] out2];
      simpl in *; congruence.
Qed.

(** ** Unknown features *)

(** C7. For a name that is not a key of the feature mapping,
    [is_feature_enabled] returns [False] and [feature_exists] returns
    [False]; neither raises. *)
Theorem unknown_feature_is_disabled (self : FeatureFlagConfig)
    (name : string) (fs : list (string * pyval)) (user : pyval)
    (out : list message) :
  features_mapping (_config self) = Some fs ->
  dict_get fs name = None ->
  fst (is_feature_enabled self name user out) = Ok (PyBool false) /\
  feature_exists self name out = (Ok false, out).
Proof.
  intros Hm Hf. split.
  - rewrite is_feature_enabled_fst.
    apply (enabled_value_unknown self name fs); assumption.
  - unfold feature_exists, mbind, M_bind, lift.
    unfold features_mapping in Hm.
    destruct (_config self) as [ | | | | | c | ]; try discriminate.
    cbn [py_get].
    destruct (dict_get c "features") as [ [ | | | | | fs' | ] | ];
      try discriminate; inversion Hm; subst; cbn; unfold dict_mem;
      rewrite ?Hf; reflexivity.
Qed.

Lemma unknown_feature_is_disabled_witness :
  fst (is_feature_enabled Demo.config "does_not_exist"
         Demo.admin_user []) = Ok (PyBool false) /\
  feature_exists Demo.config "does_not_exist" [] = (Ok false, []).
Proof.
  apply (unknown_feature_is_disabled Demo.config "does_not_exist"
           Demo.features Demo.admin_user []).
  - reflexivity.
  - reflexivity.
Defined.

(** ** Users without an identity *)

(** C10. A [user] argument that is a dictionary without the key
    [user_id], or that is neither a [User] nor a dictionary, or that is
    falsy, gives exactly what no [user] argument gives: the same result
    and the same printed lines. *)
Theorem identity_absent_like_no_user (self : FeatureFlagConfig)
    (name : string) (user : pyval) (out : list message) :
  (exists d, user = PyDict d /\ dict_mem d "user_id" = false) \/
  ((forall uid, user <> PyUser uid) /\ (forall d, user <> PyDict d)) \/
  truthy user = false ->
  is_feature_enabled self name user out =
  is_feature_enabled self name PyNone out.
Proof.
  intros H.
  assert (Hu : extract_user_id user = Ok PyNone).
  { unfold extract_user_id.
    destruct H as [ (d & -> & Hd) | [ [Hnu Hnd] | Hfalsy ] ].
    - rewrite Hd. destruct (truthy (PyDict d)); reflexivity.
    - destruct (truthy user); [ | reflexivity ].
      destruct user as [ | | | | | d | uid ]; try reflexivity.
      + destruct (Hnd d eq_refl).
      + destruct (Hnu uid eq_refl).
    - rewrite Hfalsy. reflexivity. }
  unfold is_feature_enabled. rewrite Hu. reflexivity.
Qed.

Lemma identity_absent_like_no_user_witness :
  is_feature_enabled Demo.config "admin_panel"
    (PyDict [("name", PyStr "user-123")]) [] =
  is_feature_enabled Demo.config "admin_panel" PyNone [].
Proof.
  apply (identity_absent_like_no_user Demo.config "admin_panel"
           (PyDict [("name", PyStr "user-123")]) []).
  left. exists [("name", PyStr "user-123")]. split; reflexivity.
Defined.

(** ** Any-of and all-of *)

Section Batch.

Variable self : FeatureFlagConfig.
Variable user : pyval.

Variable flag : string -> bool.

Lemma flag_of_tail (n : string) (names : list string) :
  flag_of self user flag (n :: names) -> flag_of self user flag names.
Proof. intros H m out Hm. apply H. right. exact Hm. Qed.

Lemma any_run (names : list string) (out : list message) :
  flag_of self user flag names ->
  fst (is_any_feature_enabled self names user out) = Ok (existsb flag names).
Proof.
  revert out. induction names as [ | n names IH ]; intros out Hflag.
  - reflexivity.
  - cbn [is_any_feature_enabled existsb]. unfold mbind, M_bind.
    destruct (Hflag n out (or_introl eq_refl)) as [out' ->].
    cbn [truthy]. destruct (flag n); [ reflexivity | ].
    apply IH. eapply flag_of_tail, Hflag.
Qed.

Lemma all_run (names : list string) (out : list message) :
  flag_of self user flag names ->
  fst (are_all_features_enabled self names user out) =
  Ok (forallb flag names).
Proof.
  revert out. induction names as [ | n names IH ]; intros out Hflag.
  - reflexivity.
  - cbn [are_all_features_enabled forallb]. unfold mbind, M_bind.
    destruct (Hflag n out (or_introl eq_refl)) as [out' ->].
    cbn [truthy]. destruct (flag n); [ | reflexivity ].
    apply IH. eapply flag_of_tail, Hflag.
Qed.

End Batch.

(** On a configuration of the documented shape every name has a flag. *)
Lemma wf_flag_of (self : FeatureFlagConfig) (user : pyval)
    (names : list string) :
  wf_config (_config self) = true ->
  exists flag : string -> bool,
    flag_of self user flag names /\
    forall n, enabled_value self n user = Ok (PyBool (flag n)).
Proof.
  intros Hwf.
  exists (fun n => match enabled_value self n user with
                   | Ok (PyBool true) => true
                   | _ => false
                   end).
  split.
  - intros n out _.
    destruct (wf_run self n user out Hwf) as (b & out' & Hrun & Hval).
    exists out'. rewrite Hrun, Hval. destruct b; reflexivity.
  - intros n. destruct (wf_enabled_value self n user Hwf) as [b Hval].
    rewrite Hval. destruct b; reflexivity.
Qed.

(** C9. [is_any_feature_enabled] returns [True] exactly when some name of
    the list evaluates to [True], and [are_all_features_enabled] exactly
    when every name does; on the empty list the first is [False] and the
    second [True]. *)
Theorem any_and_all_enabled (self : FeatureFlagConfig)
    (names : list string) (user : pyval) (out : list message) :
  wf_config (_config self) = true ->
  exists any_on all_on : bool,
    fst (is_any_feature_enabled self names user out) = Ok any_on /\
    fst (are_all_features_enabled self names user out) = Ok all_on /\
    (any_on = true <->
     exists n, In n names /\ enabled_value self n user = Ok (PyBool true)) /\
    (all_on = true <->
     forall n, In n names -> enabled_value self n user = Ok (PyBool true)) /\
    (names = [] -> any_on = false /\ all_on = true).
Proof.
  intros Hwf.
  destruct (wf_flag_of self user names Hwf) as (flag & Hflag & Hval).
  exists (existsb flag names), (forallb flag names).
  split; [ apply any_run, Hflag | ].
  split; [ apply all_run, Hflag | ].
  split; [ | split ].
  - rewrite existsb_exists. split.
    + intros (n & Hn & Hb). exists n. split; [ exact Hn | ].
      rewrite Hval, Hb. reflexivity.
    + intros (n & Hn & Hon). exists n. split; [ exact Hn | ].
      rewrite Hval in Hon. congruence.
  - rewrite forallb_forall. split.
    + intros Hall n Hn. rewrite Hval, (Hall n Hn). reflexivity.
    + intros Hall n Hn. specialize (Hall n Hn).
      rewrite Hval in Hall. congruence.
  - intros ->. split; reflexivity.
Qed.

Lemma any_and_all_enabled_witness :
  exists any_on all_on : bool,
    fst (is_any_feature_enabled Demo.config
           ["new_dashboard"; "beta_feature"; "dark_mode"] PyNone []) =
    Ok any_on /\
    fst (are_all_features_enabled Demo.config
           ["new_dashboard"; "beta_feature"; "dark_mode"] PyNone []) =
    Ok all_on /\
    (any_on = true <->
     exists n, In n ["new_dashboard"; "beta_feature"; "dark_mode"] /\
               enabled_value Demo.config n PyNone = Ok (PyBool true)) /\
    (all_on = true <->
     forall n, In n ["new_dashboard"; "beta_feature"; "dark_mode"] ->
               enabled_value Demo.config n PyNone = Ok (PyBool true)) /\
    (["new_dashboard"; "beta_feature"; "dark_mode"] = [] ->
     any_on = false /\ all_on = true).
Proof.
  apply (any_and_all_enabled Demo.config
           ["new_dashboard"; "beta_feature"; "dark_mode"] PyNone []).
  reflexivity.
Defined.

(** ** The batch of flags *)

Lemma dict_get_set {A : Type} (d : list (string * A)) (k k' : string)
    (v : A) :
  dict_get (dict_set d k v) k' =
  if String.eqb k' k then Some v else dict_get d k'.
Proof.
  induction d as [ | [k0 v0] d IH ]; simpl.
  - reflexivity.
  - destruct (String.eqb_spec k k0) as [ -> | Hk ]; simpl.
    + destruct (String.eqb k' k0); reflexivity.
    + rewrite IH. destruct (String.eqb_spec k' k0) as [ -> | ];
        [ | reflexivity ].
      destruct (String.eqb_spec k0 k); [ congruence | reflexivity ].
Qed.

Lemma dict_mem_keys {A : Type} (d : list (string * A)) (k : string) :
  dict_mem d k = true <-> k ∈ dict_keys d.
Proof.
  unfold dict_mem, dict_keys.
  induction d as [ | [k0 v0] d IH ]; simpl.
  - split; [ discriminate | intros H; inversion H ].
  - rewrite elem_of_cons. destruct (String.eqb_spec k k0) as [ -> | Hk ].
    + split; auto.
    + rewrite IH. split; [ auto | intros [ ? | ? ]; [ congruence | auto ] ].
Qed.

Lemma dict_keys_set {A : Type} (d : list (string * A)) (k : string) (v : A) :
  dict_keys (dict_set d k v) =
  if dict_mem d k then dict_keys d else (dict_keys d ++ [k])%list.
Proof.
  unfold dict_mem, dict_keys.
  induction d as [ | [k0 v0] d IH ]; simpl.
  - reflexivity.
  - destruct (String.eqb_spec k k0) as [ -> | Hk ]; simpl.
    + reflexivity.
    + rewrite IH. destruct (dict_get d k); reflexivity.
Qed.

Lemma filled_keys (val : string -> pyval) (names : list string)
    (acc : list (string * pyval)) :
  dict_keys (filled val names acc) =
  (dict_keys acc ++
   filter (fun n => n ∉ dict_keys acc) (first_occurrences names))%list.
Proof.
  unfold filled. revert acc.
  induction names as [ | n names IH ]; intros acc; simpl.
  - rewrite filter_nil, app_nil_r. reflexivity.
  - rewrite IH, dict_keys_set.
    destruct (dict_mem acc n) eqn:Hmem.
    + apply dict_mem_keys in Hmem.
      rewrite filter_cons_False by (intros Hn; apply Hn, Hmem).
      rewrite list_filter_filter. f_equal.
      apply list_filter_iff. intros x. split; [ | tauto ].
      intros Hx. split; [ exact Hx | ]. intros ->. apply Hx, Hmem.
    + assert (Hn : n ∉ dict_keys acc).
      { intros Hin. apply dict_mem_keys in Hin. congruence. }
      rewrite filter_cons_True by exact Hn.
      rewrite list_filter_filter, <- app_assoc. simpl. do 2 f_equal.
      apply list_filter_iff. intros x.
      rewrite not_elem_of_app, list_elem_of_singleton. tauto.
Qed.

Lemma filled_get (val : string -> pyval) (names : list string)
    (acc : list (string * pyval)) (n : string) :
  dict_get (filled val names acc) n =
  if bool_decide (n ∈ names) then Some (val n) else dict_get acc n.
Proof.
  unfold filled. revert acc.
  induction names as [ | m names IH ]; intros acc; simpl.
  - reflexivity.
  - rewrite IH. case_bool_decide as Hin.
    + rewrite bool_decide_eq_true_2 by (right; exact Hin). reflexivity.
    + rewrite dict_get_set.
      destruct (String.eqb_spec n m) as [ -> | Hne ].
      * rewrite bool_decide_eq_true_2 by left. reflexivity.
      * rewrite bool_decide_eq_false_2; [ reflexivity | ].
        rewrite not_elem_of_cons. tauto.
Qed.

Lemma filter_other_names (n : string) (names : list string) :
  n ∉ names -> filter (fun m => m <> n) names = names.
Proof.
  induction names as [ | m names IH ]; intros Hn; [ reflexivity | ].
  apply not_elem_of_cons in Hn as [Hne Hn].
  rewrite filter_cons_True by congruence.
  f_equal. apply IH, Hn.
Qed.

Lemma first_occurrences_NoDup (names : list string) :
  NoDup names -> first_occurrences names = names.
Proof.
  induction 1 as [ | n names Hn _ IH ]; simpl.
  - reflexivity.
  - rewrite IH. f_equal. apply filter_other_names, Hn.
Qed.

Lemma flags_run (self : FeatureFlagConfig) (user : pyval)
    (flag : string -> bool) (names : list string)
    (acc : list (string * pyval)) (out : list message) :
  flag_of self user flag names ->
  fst (feature_flags_into self names user acc out) =
  Ok (filled (fun n => PyBool (flag n)) names acc).
Proof.
  revert acc out. induction names as [ | n names IH ]; intros acc out Hflag.
  - reflexivity.
  - cbn [feature_flags_into]. unfold mbind, M_bind.
    destruct (Hflag n out (or_introl eq_refl)) as [out' ->].
    apply IH. eapply flag_of_tail, Hflag.
Qed.

(** C8. [get_feature_flags] returns the dictionary that maps each name of
    the list to what [is_feature_enabled] returns for it; its keys come in
    the order in which the names first occur in the list, which is the
    list itself when no name is repeated. *)
Theorem feature_flags_batch (self : FeatureFlagConfig)
    (names : list string) (user : pyval) (out : list message) :
  wf_config (_config self) = true ->
  exists d,
    fst (get_feature_flags self names user out) = Ok (PyDict d) /\
    dict_keys d = first_occurrences names /\
    (NoDup names -> dict_keys d = names) /\
    (forall n, In n names ->
       exists v, dict_get d n = Some v /\ enabled_value self n user = Ok v) /\
    (forall n, ~ In n names -> dict_get d n = None).
Proof.
  intros Hwf.
  destruct (wf_flag_of self user names Hwf) as (flag & Hflag & Hval).
  exists (filled (fun n => PyBool (flag n)) names []).
  assert (Hkeys : dict_keys (filled (fun n => PyBool (flag n)) names []) =
                  first_occurrences names).
  { rewrite filled_keys. simpl.
    induction (first_occurrences names) as [ | x l IHl ];
      [ reflexivity | ].
    rewrite filter_cons_True by apply not_elem_of_nil.
    f_equal. exact IHl. }
  split; [ | split; [ exact Hkeys | split; [ | split ] ] ].
  - unfold get_feature_flags, mbind, M_bind, mret, M_ret.
    pose proof (flags_run self user flag names [] out Hflag) as Hrun.
    destruct (feature_flags_into self names user [] out) as [r out'].
    simpl in Hrun. rewrite Hrun. reflexivity.
  - intros Hnd. rewrite Hkeys. apply first_occurrences_NoDup, Hnd.
  - intros n Hn. exists (PyBool (flag n)). split; [ | apply Hval ].
    rewrite filled_get.
    rewrite bool_decide_eq_true_2 by (apply list_elem_of_In, Hn).
    reflexivity.
  - intros n Hn. rewrite filled_get.
    rewrite bool_decide_eq_false_2; [ reflexivity | ].
    rewrite list_elem_of_In. exact Hn.
Qed.

Lemma feature_flags_batch_witness :
  exists d,
    fst (get_feature_flags Demo.config
           ["new_dashboard"; "admin_panel"; "dark_mode"]
           Demo.admin_user []) = Ok (PyDict d) /\
    dict_keys d =
      first_occurrences ["new_dashboard"; "admin_panel"; "dark_mode"] /\
    (NoDup ["new_dashboard"; "admin_panel"; "dark_mode"] ->
     dict_keys d = ["new_dashboard"; "admin_panel"; "dark_mode"]) /\
    (forall n, In n ["new_dashboard"; "admin_panel"; "dark_mode"] ->
       exists v, dict_get d n = Some v /\
                 enabled_value Demo.config n Demo.admin_user = Ok v) /\
    (forall n, ~ In n ["new_dashboard"; "admin_panel"; "dark_mode"] ->
       dict_get d n = None).
Proof.
  apply (feature_flags_batch Demo.config
           ["new_dashboard"; "admin_panel"; "dark_mode"]
           Demo.admin_user []).
  reflexivity.
Defined.

(** ** Rollout rules and environment restrictions *)

Example rollout_demo_is_of_the_documented_shape :
  wf_config (_config RolloutDemo.config) = true.
Proof. reflexivity. Qed.

(** C1, as stated, fails on [is_feature_enabled].  The feature
    [rollout_at_zero] has a rollout rule with [percentage = 0], no
    allow-list and no environment restriction, and [enabled = True]; for
    the known user [user-789] the code returns [True].  No function
    [bucket] with values in [0,100) makes that [bucket < 0]. *)
Lemma rollout_percentage_is_not_read :
  ~ exists bucket : string -> string -> Z,
      (forall featureName userId, 0 <= bucket featureName userId < 100) /\
      fst (is_feature_enabled RolloutDemo.config "rollout_at_zero"
             RolloutDemo.user_789 []) =
      Ok (PyBool (bucket "rollout_at_zero" "user-789" <? 0)).
Proof.
  intros (bucket & Hrange & Hclaim).
  change (fst (is_feature_enabled RolloutDemo.config "rollout_at_zero"
                 RolloutDemo.user_789 [])) with (@Ok pyval (PyBool true))
    in Hclaim.
  injection Hclaim as Hlt. symmetry in Hlt.
  apply Z.ltb_lt in Hlt.
  specialize (Hrange "rollout_at_zero" "user-789"). lia.
Qed.

(** C1, amended.  For a feature with a rollout rule to which the
    allow-list branch does not apply, and a user with a known identifier,
    [is_feature_enabled] returns the value of the feature's [enabled]
    flag, [False] when there is none: the rollout rule, whatever it
    holds, is not read and no bucket is computed. *)
Theorem rollout_feature_follows_enabled_flag (self : FeatureFlagConfig)
    (name : string) (fs f : list (string * pyval)) (rule : pyval)
    (user : pyval) (uid : string) (out : list message) :
  features_mapping (_config self) = Some fs ->
  dict_get fs name = Some (PyDict f) ->
  (forall v, dict_get f "onlyForUserIds" = Some v -> truthy v = false) ->
  dict_get f "rollout" = Some rule ->
  extract_user_id user = Ok (PyStr uid) ->
  fst (is_feature_enabled self name user out) =
  Ok (default (PyBool false) (dict_get f "enabled")).
Proof.
  intros Hm Hf Hfree _ _. rewrite is_feature_enabled_fst.
  apply (enabled_value_global self name fs f user Hm Hf).
  destruct (dict_get f "onlyForUserIds") as [v | ]; [ | exact I ].
  apply Hfree. reflexivity.
Qed.

Lemma rollout_feature_follows_enabled_flag_witness :
  fst (is_feature_enabled RolloutDemo.config "rollout_at_full"
         RolloutDemo.user_789 []) =
  Ok (default (PyBool false)
        (dict_get [("enabled", PyBool false);
                   ("rollout", PyDict [("percentage", PyInt 100)])]
           "enabled")).
Proof.
  apply (rollout_feature_follows_enabled_flag RolloutDemo.config
           "rollout_at_full" RolloutDemo.features
           [("enabled", PyBool false);
            ("rollout", PyDict [("percentage", PyInt 100)])]
           (PyDict [("percentage", PyInt 100)])
           RolloutDemo.user_789 "user-789" []).
  - reflexivity.
  - reflexivity.
  - intros v. discriminate.
  - reflexivity.
  - reflexivity.
Defined.

(** C2, as stated, fails on [is_feature_enabled].  The feature
    [redesigned_ui] is restricted to [staging] and [production] and has no
    allow-list; a call carries no environment at all (the method takes a
    feature name and a user), and the code returns [True], the [enabled]
    flag. *)
Lemma environments_key_is_not_read :
  dict_get RolloutDemo.features "redesigned_ui" =
    Some (PyDict
            [("enabled", PyBool true);
             ("environments", PyList [PyStr "staging"; PyStr "production"]);
             ("rollout", PyDict [("percentage", PyInt 100)])]) /\
  fst (is_feature_enabled RolloutDemo.config "redesigned_ui"
         RolloutDemo.user_789 []) = Ok (PyBool true) /\
  fst (is_feature_enabled RolloutDemo.config "redesigned_ui"
         RolloutDemo.user_789 []) <> Ok (PyBool false).
Proof.
  split; [ reflexivity | split; [ reflexivity | ] ].
  change (fst (is_feature_enabled RolloutDemo.config "redesigned_ui"
                 RolloutDemo.user_789 [])) with (@Ok pyval (PyBool true)).
  discriminate.
Qed.

(** C2, amended.  For a feature whose [environments] is present and
    non-empty and to which the allow-list branch does not apply,
    [is_feature_enabled] returns, for every user, the value of the
    feature's [enabled] flag, [False] when there is none: a call has no
    environment and [environments] is not read. *)
Theorem restricted_feature_follows_enabled_flag (self : FeatureFlagConfig)
    (name : string) (fs f : list (string * pyval)) (envs : list pyval)
    (user : pyval) (out : list message) :
  features_mapping (_config self) = Some fs ->
  dict_get fs name = Some (PyDict f) ->
  (forall v, dict_get f "onlyForUserIds" = Some v -> truthy v = false) ->
  dict_get f "environments" = Some (PyList envs) ->
  envs <> [] ->
  fst (is_feature_enabled self name user out) =
  Ok (default (PyBool false) (dict_get f "enabled")).
Proof.
  intros Hm Hf Hfree _ _. rewrite is_feature_enabled_fst.
  apply (enabled_value_global self name fs f user Hm Hf).
  destruct (dict_get f "onlyForUserIds") as [v | ] eqn:Hv; [ | exact I ].
  exact (Hfree v eq_refl).
Qed.

Lemma restricted_feature_follows_enabled_flag_witness :
  fst (is_feature_enabled RolloutDemo.config "redesigned_ui" PyNone []) =
  Ok (default (PyBool false)
        (dict_get
           [("enabled", PyBool true);
            ("environments", PyList [PyStr "staging"; PyStr "production"]);
            ("rollout", PyDict [("percentage", PyInt 100)])]
           "enabled")).
Proof.
  apply (restricted_feature_follows_enabled_flag RolloutDemo.config
           "redesigned_ui" RolloutDemo.features
           [("enabled", PyBool true);
            ("environments", PyList [PyStr "staging"; PyStr "production"]);
            ("rollout", PyDict [("percentage", PyInt 100)])]
           [PyStr "staging"; PyStr "production"] PyNone []).
  - reflexivity.
  - reflexivity.
  - intros v. discriminate.
  - reflexivity.
  - discriminate.
Defined.

(** C3, as stated, fails on [is_feature_enabled].  The feature
    [new_payment_system] has a rollout rule and no allow-list; called
    without user, the code returns [True], the [enabled] flag. *)
Lemma rollout_without_user_is_not_refused :
  extract_user_id PyNone = Ok PyNone /\
  fst (is_feature_enabled RolloutDemo.config "new_payment_system"
         PyNone []) = Ok (PyBool true) /\
  fst (is_feature_enabled RolloutDemo.config "new_payment_system"
         PyNone []) <> Ok (PyBool false).
Proof.
  split; [ reflexivity | split; [ reflexivity | ] ].
  change (fst (is_feature_enabled RolloutDemo.config "new_payment_system"
                 PyNone [])) with (@Ok pyval (PyBool true)).
  discriminate.
Qed.

(** C3, amended.  For a feature with a rollout rule to which the
    allow-list branch does not apply, and a call without user identifier,
    [is_feature_enabled] returns the value of the feature's [enabled]
    flag: the feature is refused when the flag is [False] or absent, and
    the missing identity alone refuses nothing. *)
Theorem rollout_without_identity_follows_enabled_flag
    (self : FeatureFlagConfig) (name : string)
    (fs f : list (string * pyval)) (rule : pyval) (user : pyval)
    (out : list message) :
  features_mapping (_config self) = Some fs ->
  dict_get fs name = Some (PyDict f) ->
  (forall v, dict_get f "onlyForUserIds" = Some v -> truthy v = false) ->
  dict_get f "rollout" = Some rule ->
  extract_user_id user = Ok PyNone ->
  fst (is_feature_enabled self name user out) =
    Ok (default (PyBool false) (dict_get f "enabled")) /\
  (dict_get f "enabled" = None ->
   fst (is_feature_enabled self name user out) = Ok (PyBool false)).
Proof.
  intros Hm Hf Hfree _ _.
  assert (Hflag : fst (is_feature_enabled self name user out) =
                  Ok (default (PyBool false) (dict_get f "enabled"))).
  { rewrite is_feature_enabled_fst.
    apply (enabled_value_global self name fs f user Hm Hf).
    destruct (dict_get f "onlyForUserIds") as [v | ] eqn:Hv; [ | exact I ].
    exact (Hfree v eq_refl). }
  split; [ exact Hflag | ].
  intros Hnone. rewrite Hflag, Hnone. reflexivity.
Qed.

Lemma rollout_without_identity_follows_enabled_flag_witness :
  fst (is_feature_enabled RolloutDemo.config "new_payment_system"
         (PyDict [("name", PyStr "anonymous")]) []) =
    Ok (default (PyBool false)
          (dict_get [("enabled", PyBool true);
                     ("rollout", PyDict [("percentage", PyInt 10)])]
             "enabled")) /\
  (dict_get [("enabled", PyBool true);
             ("rollout", PyDict [("percentage", PyInt 10)])]
     "enabled" = None ->
   fst (is_feature_enabled RolloutDemo.config "new_payment_system"
          (PyDict [("name", PyStr "anonymous")]) []) = Ok (PyBool false)).
Proof.
  apply (rollout_without_identity_follows_enabled_flag RolloutDemo.config
           "new_payment_system" RolloutDemo.features
           [("enabled", PyBool true);
            ("rollout", PyDict [("percentage", PyInt 10)])]
           (PyDict [("percentage", PyInt 10)])
           (PyDict [("name", PyStr "anonymous")]) []).
  - reflexivity.
  - reflexivity.
  - intros v. discriminate.
  - reflexivity.
  - reflexivity.
Defined.

(** C5, as stated, fails on [is_feature_enabled] at both boundaries.
    [rollout_at_zero] ([percentage = 0], [enabled = True]) is enabled for
    [user-789], and [rollout_at_full] ([percentage = 100],
    [enabled = False]) is disabled for the same known user; neither
    feature has an allow-list or an environment restriction. *)
Lemma boundary_percentages_are_not_read :
  fst (is_feature_enabled RolloutDemo.config "rollout_at_zero"
         RolloutDemo.user_789 []) = Ok (PyBool true) /\
  fst (is_feature_enabled RolloutDemo.config "rollout_at_full"
         RolloutDemo.user_789 []) = Ok (PyBool false) /\
  extract_user_id RolloutDemo.user_789 = Ok (PyStr "user-789").
Proof. repeat split; reflexivity. Qed.

(** C5, amended.  For a feature with a rollout rule to which the
    allow-list branch does not apply, [is_feature_enabled] returns the
    value of the feature's [enabled] flag at [percentage = 0] as at
    [percentage = 100], for every user: at 0 the feature is enabled when
    the flag is [True], at 100 it is disabled when the flag is [False] or
    absent. *)
Theorem boundary_percentages_follow_enabled_flag
    (self : FeatureFlagConfig) (name : string)
    (fs f rule : list (string * pyval)) (pct : Z) (user : pyval)
    (out : list message) :
  features_mapping (_config self) = Some fs ->
  dict_get fs name = Some (PyDict f) ->
  (forall v, dict_get f "onlyForUserIds" = Some v -> truthy v = false) ->
  dict_get f "rollout" = Some (PyDict rule) ->
  dict_get rule "percentage" = Some (PyInt pct) ->
  pct = 0 \/ pct = 100 ->
  fst (is_feature_enabled self name user out) =
    Ok (default (PyBool false) (dict_get f "enabled")) /\
  (pct = 0 -> dict_get f "enabled" = Some (PyBool true) ->
   fst (is_feature_enabled self name user out) = Ok (PyBool true)) /\
  (pct = 100 ->
   dict_get f "enabled" = Some (PyBool false) \/ dict_get f "enabled" = None ->
   fst (is_feature_enabled self name user out) = Ok (PyBool false)).
Proof.
  intros Hm Hf Hfree _ _ _.
  assert (Hflag : fst (is_feature_enabled self name user out) =
                  Ok (default (PyBool false) (dict_get f "enabled"))).
  { rewrite is_feature_enabled_fst.
    apply (enabled_value_global self name fs f user Hm Hf).
    destruct (dict_get f "onlyForUserIds") as [v | ] eqn:Hv; [ | exact I ].
    exact (Hfree v eq_refl). }
  split; [ exact Hflag | split ].
  - intros _ Hon. rewrite Hflag, Hon. reflexivity.
  - intros _ [Hoff | Hoff]; rewrite Hflag, Hoff; reflexivity.
Qed.

Lemma boundary_percentages_follow_enabled_flag_witness :
  fst (is_feature_enabled RolloutDemo.config "rollout_at_zero"
         RolloutDemo.user_789 []) = Ok (PyBool true).
Proof.
  apply (boundary_percentages_follow_enabled_flag RolloutDemo.config
           "rollout_at_zero" RolloutDemo.features
           [("enabled", PyBool true);
            ("rollout", PyDict [("percentage", PyInt 0)])]
           [("percentage", PyInt 0)] 0 RolloutDemo.user_789 []).
  - reflexivity.
  - reflexivity.
  - intros v. discriminate.
  - reflexivity.
  - reflexivity.
  - left. reflexivity.
  - reflexivity.
  - reflexivity.
Defined.

(** * Further properties of [ffxl.py] *)

(** ** Names, existence and raw configuration *)

Lemma get_all_feature_names_mapping (self : FeatureFlagConfig)
    (fs : list (string * pyval)) (out : list message) :
  features_mapping (_config self) = Some fs ->
  get_all_feature_names self out = (Ok (dict_keys fs), out).
Proof.
  unfold features_mapping, get_all_feature_names, mbind, M_bind, lift.
  destruct (_config self) as [ | | | | | c | ]; try discriminate.
  cbn [py_get].
  destruct (dict_get c "features") as [ [ | | | | | fs' | ] | ];
    try discriminate; intros [= <-]; reflexivity.
Qed.

Lemma get_all_feature_names_inv (self : FeatureFlagConfig)
    (names : list string) (out : list message) :
  fst (get_all_feature_names self out) = Ok names ->
  exists fs,
    features_mapping (_config self) = Some fs /\ names = dict_keys fs.
Proof.
  unfold features_mapping, get_all_feature_names, mbind, M_bind, lift.
  destruct (_config self) as [ | | | | | c | ]; try discriminate.
  cbn [py_get].
  destruct (dict_get c "features") as [ [ | | | | | fs' | ] | ];
    try discriminate; cbn; intros [= <-]; eauto.
Qed.

Lemma feature_exists_mapping (self : FeatureFlagConfig)
    (fs : list (string * pyval)) (name : string) (out : list message) :
  features_mapping (_config self) = Some fs ->
  feature_exists self name out = (Ok (dict_mem fs name), out).
Proof.
  unfold features_mapping, feature_exists, mbind, M_bind, lift.
  destruct (_config self) as [ | | | | | c | ]; try discriminate.
  cbn [py_get].
  destruct (dict_get c "features") as [ [ | | | | | fs' | ] | ];
    try discriminate; intros [= <-]; reflexivity.
Qed.

Lemma get_feature_config_mapping (self : FeatureFlagConfig)
    (fs : list (string * pyval)) (name : string) (out : list message) :
  features_mapping (_config self) = Some fs ->
  get_feature_config self name out =
  (Ok (default PyNone (dict_get fs name)), out).
Proof.
  unfold features_mapping, get_feature_config, mbind, M_bind, lift.
  destruct (_config self) as [ | | | | | c | ]; try discriminate.
  cbn [py_get].
  destruct (dict_get c "features") as [ [ | | | | | fs' | ] | ];
    try discriminate; intros [= <-]; cbn;
    [ destruct (dict_get fs' name) | ]; reflexivity.
Qed.

(** X1. Whenever [get_all_feature_names] returns a list, [feature_exists]
    returns for every name, and returns [True] exactly for the names of
    that list; [get_feature_config] returns too, and gives [None] for
    every name that does not exist. *)
Theorem names_agree_with_existence (self : FeatureFlagConfig)
    (names : list string) (name : string) (out out' : list message) :
  fst (get_all_feature_names self out) = Ok names ->
  exists (b : bool) (v : pyval),
    fst (feature_exists self name out') = Ok b /\
    (b = true <-> In name names) /\
    fst (get_feature_config self name out') = Ok v /\
    (b = false -> v = PyNone).
Proof.
  intros Hnames.
  destruct (get_all_feature_names_inv self names out Hnames)
    as (fs & Hm & ->).
  exists (dict_mem fs name), (default PyNone (dict_get fs name)).
  rewrite (feature_exists_mapping self fs name out' Hm).
  rewrite (get_feature_config_mapping self fs name out' Hm).
  split; [ reflexivity | split; [ | split; [ reflexivity | ] ] ].
  - rewrite dict_mem_keys. apply list_elem_of_In.
  - unfold dict_mem. destruct (dict_get fs name);
      [ discriminate | reflexivity ].
Qed.

Lemma names_agree_with_existence_witness :
  exists (b : bool) (v : pyval),
    fst (feature_exists Demo.config "dark_mode" []) = Ok b /\
    (b = true <-> In "dark_mode" (dict_keys Demo.features)) /\
    fst (get_feature_config Demo.config "dark_mode" []) = Ok v /\
    (b = false -> v = PyNone).
Proof.
  apply (names_agree_with_existence Demo.config (dict_keys Demo.features)
           "dark_mode" [] []).
  reflexivity.
Defined.

(** X2. A configuration that is not a dictionary (an empty YAML file
    loads as [None]) makes every query raise [AttributeError]; the batch
    queries raise it as soon as they have one name to evaluate. *)
Theorem non_dict_configuration_raises (self : FeatureFlagConfig)
    (name : string) (names : list string) (user : pyval)
    (out : list message) :
  (forall c, _config self <> PyDict c) ->
  fst (feature_exists self name out) = Raise AttributeError /\
  fst (is_feature_enabled self name user out) = Raise AttributeError /\
  fst (get_all_feature_names self out) = Raise AttributeError /\
  fst (get_feature_config self name out) = Raise AttributeError /\
  fst (get_enabled_features self user out) = Raise AttributeError /\
  fst (is_any_feature_enabled self (name :: names) user out) =
    Raise AttributeError /\
  fst (are_all_features_enabled self (name :: names) user out) =
    Raise AttributeError /\
  fst (get_feature_flags self (name :: names) user out) =
    Raise AttributeError.
Proof.
  intros Hnd.
  assert (Hget : forall k d, py_get (_config self) k d = Raise AttributeError).
  { intros k d. destruct (_config self) as [ | | | | | c | ];
      try reflexivity. destruct (Hnd c eq_refl). }
  assert (Hrun : forall out0,
             is_feature_enabled self name user out0 =
             (Raise AttributeError, out0)).
  { intros out0. unfold is_feature_enabled, feature_exists, mbind, M_bind, lift.
    rewrite Hget. reflexivity. }
  repeat split.
  - unfold feature_exists, mbind, M_bind, lift. rewrite Hget. reflexivity.
  - rewrite Hrun. reflexivity.
  - unfold get_all_feature_names, mbind, M_bind, lift. rewrite Hget.
    reflexivity.
  - unfold get_feature_config, mbind, M_bind, lift. rewrite Hget.
    reflexivity.
  - unfold get_enabled_features, get_all_feature_names, mbind, M_bind, lift.
    rewrite Hget. reflexivity.
  - cbn [is_any_feature_enabled]. unfold mbind, M_bind. rewrite Hrun.
    reflexivity.
  - cbn [are_all_features_enabled]. unfold mbind, M_bind. rewrite Hrun.
    reflexivity.
  - unfold get_feature_flags. cbn [feature_flags_into].
    unfold mbind, M_bind. rewrite Hrun. reflexivity.
Qed.

Lemma non_dict_configuration_raises_witness :
  let self := {| _config := PyNone; _dev_mode := true |} in
  fst (feature_exists self "dark_mode" []) = Raise AttributeError /\
  fst (is_feature_enabled self "dark_mode" PyNone []) =
    Raise AttributeError /\
  fst (get_all_feature_names self []) = Raise AttributeError /\
  fst (get_feature_config self "dark_mode" []) = Raise AttributeError /\
  fst (get_enabled_features self PyNone []) = Raise AttributeError /\
  fst (is_any_feature_enabled self ["dark_mode"] PyNone []) =
    Raise AttributeError /\
  fst (are_all_features_enabled self ["dark_mode"] PyNone []) =
    Raise AttributeError /\
  fst (get_feature_flags self ["dark_mode"] PyNone []) =
    Raise AttributeError.
Proof.
  intros self.
  apply (non_dict_configuration_raises self "dark_mode" [] PyNone []).
  intros c. discriminate.
Defined.

(** ** The list of enabled features *)

Lemma enabled_among_run (self : FeatureFlagConfig) (user : pyval)
    (flag : string -> bool) (names : list string) (out : list message) :
  flag_of self user flag names ->
  fst (enabled_among self names user out) = Ok (List.filter flag names).
Proof.
  revert out. induction names as [ | n names IH ]; intros out Hflag.
  - reflexivity.
  - cbn [enabled_among List.filter]. unfold mbind, M_bind.
    destruct (Hflag n out (or_introl eq_refl)) as [out' ->].
    specialize (IH out' (flag_of_tail self user flag n names Hflag)).
    destruct (enabled_among self names user out') as [[kept | e] out''];
      simpl in IH; [ | discriminate ].
    injection IH as ->. cbn [truthy]. destruct (flag n); reflexivity.
Qed.

Lemma sublist_filter_bool {A : Type} (f g : A -> bool) (l : list A) :
  (forall x, f x = true -> g x = true) ->
  sublist (List.filter f l) (List.filter g l).
Proof.
  intros Hfg. induction l as [ | x l IH ]; simpl.
  - constructor.
  - destruct (f x) eqn:Hf.
    + rewrite (Hfg x Hf). constructor. exact IH.
    + destruct (g x); [ constructor | ]; exact IH.
Qed.

Lemma sublist_filter_self {A : Type} (f : A -> bool) (l : list A) :
  sublist (List.filter f l) l.
Proof.
  induction l as [ | x l IH ]; simpl.
  - constructor.
  - destruct (f x); constructor; exact IH.
Qed.

Lemma wf_features_mapping (self : FeatureFlagConfig) :
  wf_config (_config self) = true ->
  exists fs, features_mapping (_config self) = Some fs.
Proof.
  unfold wf_config.
  destruct (features_mapping (_config self)); [ eauto | discriminate ].
Qed.

Lemma get_enabled_features_run (self : FeatureFlagConfig) (user : pyval)
    (flag : string -> bool) (fs : list (string * pyval))
    (out : list message) :
  features_mapping (_config self) = Some fs ->
  flag_of self user flag (dict_keys fs) ->
  fst (get_enabled_features self user out) =
  Ok (List.filter flag (dict_keys fs)).
Proof.
  intros Hm Hflag. unfold get_enabled_features, mbind, M_bind.
  rewrite (get_all_feature_names_mapping self fs out Hm).
  apply enabled_among_run, Hflag.
Qed.

(** X3. On a configuration of the documented shape
    [get_enabled_features] returns a sublist of [get_all_feature_names],
    in the same order, and a name is in it exactly when
    [is_feature_enabled] returns [True] for it. *)
Theorem enabled_features_are_the_enabled_names (self : FeatureFlagConfig)
    (user : pyval) (out : list message) :
  wf_config (_config self) = true ->
  exists names enabled_names,
    fst (get_all_feature_names self out) = Ok names /\
    fst (get_enabled_features self user out) = Ok enabled_names /\
    sublist enabled_names names /\
    forall n, In n enabled_names <->
              enabled_value self n user = Ok (PyBool true).
Proof.
  intros Hwf.
  destruct (wf_features_mapping self Hwf) as [fs Hm].
  destruct (wf_flag_of self user (dict_keys fs) Hwf) as (flag & Hflag & Hval).
  exists (dict_keys fs), (List.filter flag (dict_keys fs)).
  rewrite (get_all_feature_names_mapping self fs out Hm).
  rewrite (get_enabled_features_run self user flag fs out Hm Hflag).
  split; [ reflexivity | split; [ reflexivity | split ] ].
  - apply sublist_filter_self.
  - intros n. rewrite filter_In, Hval. split.
    + intros [_ ->]. reflexivity.
    + intros [= Hn]. split; [ | exact Hn ].
      apply list_elem_of_In, dict_mem_keys. unfold dict_mem.
      destruct (dict_get fs n) eqn:Hf; [ reflexivity | ].
      pose proof (enabled_value_unknown self n fs user Hm Hf) as Hun.
      rewrite Hval, Hn in Hun. discriminate.
Qed.

Lemma enabled_features_are_the_enabled_names_witness :
  exists names enabled_names,
    fst (get_all_feature_names Demo.config []) = Ok names /\
    fst (get_enabled_features Demo.config Demo.regular_user []) =
      Ok enabled_names /\
    sublist enabled_names names /\
    forall n, In n enabled_names <->
              enabled_value Demo.config n Demo.regular_user =
              Ok (PyBool true).
Proof.
  apply (enabled_features_are_the_enabled_names Demo.config
           Demo.regular_user []).
  reflexivity.
Defined.

Example enabled_for_regular_user :
  value_of (get_enabled_features Demo.config Demo.regular_user) =
  Ok ["new_dashboard"; "dark_mode"].
Proof. reflexivity. Qed.

Example enabled_for_admin :
  value_of (get_enabled_features Demo.config Demo.admin_user) =
  Ok ["new_dashboard"; "admin_panel"; "dark_mode"].
Proof. reflexivity. Qed.

(** What is enabled without an identity is enabled for every user. *)
Lemma enabled_without_identity (self : FeatureFlagConfig) (name : string)
    (user : pyval) :
  wf_config (_config self) = true ->
  enabled_value self name PyNone = Ok (PyBool true) ->
  enabled_value self name user = Ok (PyBool true).
Proof.
  unfold wf_config. intros Hwf Hnone.
  destruct (features_mapping (_config self)) as [fs | ] eqn:Hm;
    [ | discriminate ].
  destruct (dict_get fs name) as [feature | ] eqn:Hf.
  - rewrite forallb_forall in Hwf.
    specialize (Hwf _ (dict_get_In _ _ _ Hf)). simpl in Hwf.
    destruct feature as [ | | | | | f | ]; try discriminate.
    simpl in Hwf. apply andb_prop in Hwf as [Hids _].
    assert (Hfree : match dict_get f "onlyForUserIds" with
                    | Some v => truthy v = false
                    | None => True
                    end).
    { destruct (dict_get f "onlyForUserIds") as [v | ] eqn:Hv;
        [ | exact I ].
      destruct (truthy v) eqn:Ht; [ | reflexivity ].
      rewrite (enabled_value_restricted self name fs f v PyNone PyNone
                 Hm Hf Hv Ht eq_refl) in Hnone.
      destruct v as [ | | | | ids | | ]; try discriminate.
      simpl in Hnone. injection Hnone as Hex.
      apply existsb_exists in Hex as (x & Hx & Heq).
      rewrite forallb_forall in Hids. specialize (Hids x Hx).
      destruct x; discriminate. }
    rewrite (enabled_value_global self name fs f PyNone Hm Hf Hfree)
      in Hnone.
    rewrite (enabled_value_global self name fs f user Hm Hf Hfree).
    exact Hnone.
  - rewrite (enabled_value_unknown self name fs PyNone Hm Hf) in Hnone.
    discriminate.
Qed.

(** X4. On a configuration of the documented shape, the features enabled
    for a call without user are enabled for every user:
    [get_enabled_features()] is a sublist of [get_enabled_features(user)]. *)
Theorem anonymous_features_are_enabled_for_all (self : FeatureFlagConfig)
    (user : pyval) (out out' : list message) :
  wf_config (_config self) = true ->
  exists for_nobody for_user,
    fst (get_enabled_features self PyNone out) = Ok for_nobody /\
    fst (get_enabled_features self user out') = Ok for_user /\
    sublist for_nobody for_user.
Proof.
  intros Hwf.
  destruct (wf_features_mapping self Hwf) as [fs Hm].
  destruct (wf_flag_of self PyNone (dict_keys fs) Hwf)
    as (flag0 & Hflag0 & Hval0).
  destruct (wf_flag_of self user (dict_keys fs) Hwf)
    as (flag & Hflag & Hval).
  exists (List.filter flag0 (dict_keys fs)), (List.filter flag (dict_keys fs)).
  rewrite (get_enabled_features_run self PyNone flag0 fs out Hm Hflag0).
  rewrite (get_enabled_features_run self user flag fs out' Hm Hflag).
  split; [ reflexivity | split; [ reflexivity | ] ].
  apply sublist_filter_bool. intros n Hn.
  assert (Hon : enabled_value self n PyNone = Ok (PyBool true))
    by (rewrite Hval0, Hn; reflexivity).
  apply (enabled_without_identity self n user Hwf) in Hon.
  rewrite Hval in Hon. congruence.
Qed.

Lemma anonymous_features_are_enabled_for_all_witness :
  exists for_nobody for_user,
    fst (get_enabled_features Demo.config PyNone []) = Ok for_nobody /\
    fst (get_enabled_features Demo.config Demo.admin_user []) =
      Ok for_user /\
    sublist for_nobody for_user.
Proof.
  apply (anonymous_features_are_enabled_for_all Demo.config
           Demo.admin_user [] []).
  reflexivity.
Defined.

(** ** One feature at a time *)

(** The evaluation of a known name is the evaluation of its entry alone. *)
Lemma enabled_value_found (self : FeatureFlagConfig) (name : string)
    (fs : list (string * pyval)) (feature user : pyval) :
  features_mapping (_config self) = Some fs ->
  dict_get fs name = Some feature ->
  enabled_value self name user =
  enabled_value
    {| _config := PyDict [("features", PyDict [(name, feature)])];
       _dev_mode := false |} name user.
Proof.
  intros Hm Hf.
  destruct (features_mapping_lookup _ _ _ _ Hm Hf) as (c & Hc & Hfs).
  run_silent. rewrite Hc.
  repeat (progress (cbn; unfold dict_mem;
                    rewrite ?Hfs, ?Hf, ?String.eqb_refl)).
  reflexivity.
Qed.

(** X5. The result for a name depends on the entry of that name only: two
    configurations whose feature mappings bind the name alike (or both
    leave it out) give the same result, whatever their other features. *)
Theorem evaluation_reads_one_entry (self1 self2 : FeatureFlagConfig)
    (fs1 fs2 : list (string * pyval)) (name : string) (user : pyval)
    (out1 out2 : list message) :
  features_mapping (_config self1) = Some fs1 ->
  features_mapping (_config self2) = Some fs2 ->
  dict_get fs1 name = dict_get fs2 name ->
  fst (is_feature_enabled self1 name user out1) =
  fst (is_feature_enabled self2 name user out2).
Proof.
  intros Hm1 Hm2 Heq. rewrite !is_feature_enabled_fst.
  destruct (dict_get fs1 name) as [feature | ] eqn:Hf1; symmetry in Heq.
  - rewrite (enabled_value_found self1 name fs1 feature user Hm1 Hf1).
    rewrite (enabled_value_found self2 name fs2 feature user Hm2 Heq).
    reflexivity.
  - rewrite (enabled_value_unknown self1 name fs1 user Hm1 Hf1).
    rewrite (enabled_value_unknown self2 name fs2 user Hm2 Heq).
    reflexivity.
Qed.

Lemma evaluation_reads_one_entry_witness :
  fst (is_feature_enabled Demo.config "admin_panel" Demo.admin_user []) =
  fst (is_feature_enabled
         {| _config :=
              PyDict
                [("features",
                   PyDict (dict_set Demo.features "dark_mode" PyNone))];
            _dev_mode := false |}
         "admin_panel" Demo.admin_user []).
Proof.
  apply (evaluation_reads_one_entry Demo.config _ Demo.features
           (dict_set Demo.features "dark_mode" PyNone)).
  - reflexivity.
  - reflexivity.
  - reflexivity.
Defined.

(** X6. A feature whose [onlyForUserIds] is absent or falsy (an empty
    list, [null]) is restricted to nobody: for every user, identified or
    not, [is_feature_enabled] returns the value of [enabled] as it stands
    in the configuration, and [False] when there is none. *)
Theorem empty_allowlist_restricts_nobody (self : FeatureFlagConfig)
    (name : string) (fs f : list (string * pyval)) (user : pyval)
    (out : list message) :
  features_mapping (_config self) = Some fs ->
  dict_get fs name = Some (PyDict f) ->
  (forall v, dict_get f "onlyForUserIds" = Some v -> truthy v = false) ->
  fst (is_feature_enabled self name user out) =
  Ok (default (PyBool false) (dict_get f "enabled")).
Proof.
  intros Hm Hf Hfree. rewrite is_feature_enabled_fst.
  apply (enabled_value_global self name fs f user Hm Hf).
  destruct (dict_get f "onlyForUserIds") as [v | ]; [ | exact I ].
  apply Hfree. reflexivity.
Qed.

Lemma empty_allowlist_restricts_nobody_witness :
  fst (is_feature_enabled Demo.config "experimental_api"
         Demo.regular_user []) =
  Ok (default (PyBool false)
        (dict_get [("onlyForUserIds", PyList [])] "enabled")).
Proof.
  apply (empty_allowlist_restricts_nobody Demo.config "experimental_api"
           Demo.features [("onlyForUserIds", PyList [])]
           Demo.regular_user []).
  - reflexivity.
  - reflexivity.
  - intros v [= <-]. reflexivity.
Defined.

(** X7. A dictionary with a [user_id] key stands for the [User] object
    with that identifier: both give the same result and print the same
    lines, whatever other keys the dictionary has. *)
Theorem user_dict_like_user_object (self : FeatureFlagConfig)
    (name : string) (d : list (string * pyval)) (uid : pyval)
    (out : list message) :
  dict_get d "user_id" = Some uid ->
  is_feature_enabled self name (PyDict d) out =
  is_feature_enabled self name (PyUser uid) out.
Proof.
  intros Hd.
  assert (Hu : extract_user_id (PyDict d) = extract_user_id (PyUser uid)).
  { unfold extract_user_id, dict_mem, py_getitem. rewrite Hd.
    destruct d; [ discriminate | reflexivity ]. }
  unfold is_feature_enabled. rewrite Hu. reflexivity.
Qed.

Lemma user_dict_like_user_object_witness :
  is_feature_enabled Demo.config "admin_panel" Demo.user_dict [] =
  is_feature_enabled Demo.config "admin_panel"
    (PyUser (PyStr "user-456")) [].
Proof.
  apply (user_dict_like_user_object Demo.config "admin_panel"
           [("user_id", PyStr "user-456")] (PyStr "user-456") []).
  reflexivity.
Defined.

(** X8. A name bound to a value that is not a dictionary (a YAML entry
    without body is [null]) exists for [feature_exists], yet
    [is_feature_enabled] raises [TypeError] or [AttributeError] for it,
    with every user. *)
Theorem feature_without_body_raises (self : FeatureFlagConfig)
    (name : string) (fs : list (string * pyval)) (feature user : pyval)
    (out : list message) :
  features_mapping (_config self) = Some fs ->
  dict_get fs name = Some feature ->
  (forall f, feature <> PyDict f) ->
  fst (feature_exists self name out) = Ok true /\
  exists e,
    fst (is_feature_enabled self name user out) = Raise e /\
    (e = TypeError \/ e = AttributeError).
Proof.
  intros Hm Hf Hnd. split.
  - rewrite (feature_exists_mapping self fs name out Hm).
    unfold dict_mem. rewrite Hf. reflexivity.
  - rewrite is_feature_enabled_fst.
    rewrite (enabled_value_found self name fs feature user Hm Hf).
    destruct (extract_user_id_total user) as [uid Hu].
    unfold enabled_value, value_of, is_feature_enabled, feature_exists, _log.
    cbn [_config _dev_mode]. unfold mbind, M_bind, mret, M_ret, lift.
    cbn [py_get py_getitem dict_get String.eqb Ascii.eqb Bool.eqb].
    cbn [py_in hashable]. unfold dict_mem. cbn [dict_get].
    rewrite String.eqb_refl. cbn [negb]. rewrite Hu.
    destruct feature as [ | b | n | s | items | f | u ].
    + eexists; split; [ reflexivity | auto ].
    + eexists; split; [ reflexivity | auto ].
    + eexists; split; [ reflexivity | auto ].
    + cbn. destruct (substringb "onlyForUserIds" s);
        eexists; (split; [ reflexivity | auto ]).
    + cbn [py_in].
      destruct (existsb (py_eq (PyStr "onlyForUserIds")) items);
        eexists; (split; [ reflexivity | auto ]).
    + destruct (Hnd f eq_refl).
    + eexists; split; [ reflexivity | auto ].
Qed.

Lemma feature_without_body_raises_witness :
  let self :=
    {| _config := PyDict [("features", PyDict [("draft", PyNone)])];
       _dev_mode := false |} in
  fst (feature_exists self "draft" []) = Ok true /\
  exists e,
    fst (is_feature_enabled self "draft" Demo.admin_user []) = Raise e /\
    (e = TypeError \/ e = AttributeError).
Proof.
  intros self.
  apply (feature_without_body_raises self "draft" [("draft", PyNone)]
           PyNone Demo.admin_user []).
  - reflexivity.
  - reflexivity.
  - intros f. discriminate.
Defined.

(** ** An allow-list given as one string *)

Lemma append_cons (b : ascii) (t c : string) :
  String.append (String b t) c = String b (String.append t c).
Proof. reflexivity. Qed.

Lemma prefix_spec (t s : string) :
  String.prefix t s = true <-> exists c, s = String.append t c.
Proof.
  revert s. induction t as [ | a t IH ]; intros s.
  - split; [ intros _; exists s; reflexivity | ].
    intros _. destruct s; reflexivity.
  - destruct s as [ | b s ]; simpl.
    + split; [ discriminate | intros [c Hc]; discriminate ].
    + destruct (ascii_dec a b) as [ -> | Hab ].
      * rewrite IH. split; intros [c Hc]; exists c.
        -- rewrite append_cons, Hc. reflexivity.
        -- rewrite append_cons in Hc. congruence.
      * split; [ discriminate | ].
        intros [c Hc]. rewrite append_cons in Hc. congruence.
Qed.

Lemma substringb_spec (t s : string) :
  substringb t s = true <->
  exists a c, s = String.append a (String.append t c).
Proof.
  induction s as [ | b s IH ]; cbn [substringb].
  - rewrite orb_false_r, prefix_spec. split.
    + intros [c Hc]. exists EmptyString, c. exact Hc.
    + intros (a & c & Hs). destruct a as [ | b a ]; [ eauto | ].
      rewrite append_cons in Hs. discriminate.
  - rewrite orb_true_iff, prefix_spec, IH. split.
    + intros [ [c Hc] | (a & c & Hs) ].
      * exists EmptyString, c. exact Hc.
      * exists (String b a), c. rewrite append_cons, Hs. reflexivity.
    + intros (a & c & Hs). destruct a as [ | b' a ].
      * left. eauto.
      * right. exists a, c. rewrite append_cons in Hs. congruence.
Qed.

(** X9. When [onlyForUserIds] is a single non-empty string instead of a
    list, membership is the substring test of Python: a user is let in
    exactly when the identifier occurs somewhere inside that string, and
    a call without identity raises [TypeError]. *)
Theorem string_allowlist_matches_substrings (self : FeatureFlagConfig)
    (name : string) (fs f : list (string * pyval)) (s : string)
    (user : pyval) (out : list message) :
  features_mapping (_config self) = Some fs ->
  dict_get fs name = Some (PyDict f) ->
  dict_get f "onlyForUserIds" = Some (PyStr s) ->
  s <> "" ->
  (forall u, extract_user_id user = Ok (PyStr u) ->
     exists b,
       fst (is_feature_enabled self name user out) = Ok (PyBool b) /\
       (b = true <->
        exists a c, s = String.append a (String.append u c))) /\
  (extract_user_id user = Ok PyNone ->
   fst (is_feature_enabled self name user out) = Raise TypeError).
Proof.
  intros Hm Hf Hs Hne.
  assert (Ht : truthy (PyStr s) = true).
  { simpl. destruct (String.eqb_spec s ""); [ contradiction | reflexivity ]. }
  split.
  - intros u Hu. exists (substringb u s). split.
    + rewrite is_feature_enabled_fst.
      rewrite (enabled_value_restricted self name fs f _ _ user
                 Hm Hf Hs Ht Hu).
      reflexivity.
    + apply substringb_spec.
  - intros Hu. rewrite is_feature_enabled_fst.
    rewrite (enabled_value_restricted self name fs f _ _ user
               Hm Hf Hs Ht Hu).
    reflexivity.
Qed.

Lemma string_allowlist_matches_substrings_witness :
  let self :=
    {| _config :=
         PyDict
           [("features",
              PyDict
                [("admin_panel",
                   PyDict [("onlyForUserIds", PyStr "user-123")])])];
       _dev_mode := false |} in
  (forall u, extract_user_id (PyUser (PyStr "user-1")) = Ok (PyStr u) ->
     exists b,
       fst (is_feature_enabled self "admin_panel"
              (PyUser (PyStr "user-1")) []) = Ok (PyBool b) /\
       (b = true <->
        exists a c, "user-123" = String.append a (String.append u c))) /\
  (extract_user_id (PyUser (PyStr "user-1")) = Ok PyNone ->
   fst (is_feature_enabled self "admin_panel"
          (PyUser (PyStr "user-1")) []) = Raise TypeError).
Proof.
  intros self.
  apply (string_allowlist_matches_substrings self "admin_panel"
           [("admin_panel", PyDict [("onlyForUserIds", PyStr "user-123")])]
           [("onlyForUserIds", PyStr "user-123")] "user-123"
           (PyUser (PyStr "user-1")) []).
  - reflexivity.
  - reflexivity.
  - reflexivity.
  - discriminate.
Defined.

Example prefix_of_an_identifier_is_let_in :
  value_of
    (is_feature_enabled
       {| _config :=
            PyDict
              [("features",
                 PyDict
                   [("admin_panel",
                      PyDict [("onlyForUserIds", PyStr "user-123")])])];
          _dev_mode := false |}
       "admin_panel" (PyUser (PyStr "user-1"))) = Ok (PyBool true).
Proof. reflexivity. Qed.

(** ** Short circuit *)

(** X10. [is_any_feature_enabled] on a concatenation runs the first list
    and goes on with the second only when the first returned [False];
    after a [True] (or an exception) of the first list no name of the
    second is evaluated, nothing more is printed, and no exception of the
    second list is raised. *)
Theorem any_stops_at_first_enabled (self : FeatureFlagConfig)
    (names1 names2 : list string) (user : pyval) (out : list message) :
  is_any_feature_enabled self (names1 ++ names2) user out =
  match is_any_feature_enabled self names1 user out with
  | (Ok false, out') => is_any_feature_enabled self names2 user out'
  | stopped => stopped
  end.
Proof.
  revert out. induction names1 as [ | n names1 IH ]; intros out.
  - reflexivity.
  - cbn [app is_any_feature_enabled]. unfold mbind, M_bind.
    destruct (is_feature_enabled self n user out) as [[v | e] out'];
      [ | reflexivity ].
    destruct (truthy v); [ reflexivity | apply IH ].
Qed.

(** X11. [are_all_features_enabled] on a concatenation runs the first
    list and goes on with the second only when the first returned [True];
    after a [False] (or an exception) of the first list no name of the
    second is evaluated. *)
Theorem all_stops_at_first_disabled (self : FeatureFlagConfig)
    (names1 names2 : list string) (user : pyval) (out : list message) :
  are_all_features_enabled self (names1 ++ names2) user out =
  match are_all_features_enabled self names1 user out with
  | (Ok true, out') => are_all_features_enabled self names2 user out'
  | stopped => stopped
  end.
Proof.
  revert out. induction names1 as [ | n names1 IH ]; intros out.
  - reflexivity.
  - cbn [app are_all_features_enabled]. unfold mbind, M_bind.
    destruct (is_feature_enabled self n user out) as [[v | e] out'];
      [ | reflexivity ].
    destruct (truthy v); [ apply IH | reflexivity ].
Qed.

Example any_skips_a_broken_feature :
  value_of
    (is_any_feature_enabled
       {| _config :=
            PyDict
              [("features",
                 PyDict [("on", PyDict [("enabled", PyBool true)]);
                         ("draft", PyNone)])];
          _dev_mode := false |}
       ["on"; "draft"] PyNone) = Ok true.
Proof. reflexivity. Qed.

(** ** What is printed *)

Lemma feature_exists_prints_nothing (self : FeatureFlagConfig)
    (name : string) (out : list message) :
  snd (feature_exists self name out) = out.
Proof.
  unfold feature_exists, mbind, M_bind, lift.
  destruct (py_get (_config self) "features" (PyDict [])); reflexivity.
Qed.


Lemma silent_evaluation (self : FeatureFlagConfig) (name : string)
    (user : pyval) (out : list message) :
  _dev_mode self = false ->
  snd (is_feature_enabled self name user out) = out.
Proof.
  intros Hdev. unfold is_feature_enabled, feature_exists, _log.
  unfold mbind, M_bind, mret, M_ret, lift. rewrite Hdev.
  repeat case_match; simplify_eq/=; reflexivity.
Qed.

Lemma silent_any (self : FeatureFlagConfig) (names : list string)
    (user : pyval) (out : list message) :
  _dev_mode self = false ->
  snd (is_any_feature_enabled self names user out) = out.
Proof.
  intros Hdev. revert out. induction names as [ | n names IH ]; intros out.
  - reflexivity.
  - cbn [is_any_feature_enabled]. unfold mbind, M_bind.
    pose proof (silent_evaluation self n user out Hdev) as Hn.
    destruct (is_feature_enabled self n user out) as [[v | e] out'];
      simpl in Hn; subst out'; [ | reflexivity ].
    destruct (truthy v); [ reflexivity | apply IH ].
Qed.

Lemma silent_all (self : FeatureFlagConfig) (names : list string)
    (user : pyval) (out : list message) :
  _dev_mode self = false ->
  snd (are_all_features_enabled self names user out) = out.
Proof.
  intros Hdev. revert out. induction names as [ | n names IH ]; intros out.
  - reflexivity.
  - cbn [are_all_features_enabled]. unfold mbind, M_bind.
    pose proof (silent_evaluation self n user out Hdev) as Hn.
    destruct (is_feature_enabled self n user out) as [[v | e] out'];
      simpl in Hn; subst out'; [ | reflexivity ].
    destruct (truthy v); [ apply IH | reflexivity ].
Qed.

Lemma silent_enabled_among (self : FeatureFlagConfig)
    (names : list string) (user : pyval) (out : list message) :
  _dev_mode self = false ->
  snd (enabled_among self names user out) = out.
Proof.
  intros Hdev. revert out. induction names as [ | n names IH ]; intros out.
  - reflexivity.
  - cbn [enabled_among]. unfold mbind, M_bind.
    pose proof (silent_evaluation self n user out Hdev) as Hn.
    destruct (is_feature_enabled self n user out) as [[v | e] out'];
      simpl in Hn; subst out'; [ | reflexivity ].
    specialize (IH out).
    destruct (enabled_among self names user out) as [[kept | e] out'];
      simpl in IH; subst out'; reflexivity.
Qed.

Lemma silent_flags_into (self : FeatureFlagConfig) (names : list string)
    (user : pyval) (acc : list (string * pyval)) (out : list message) :
  _dev_mode self = false ->
  snd (feature_flags_into self names user acc out) = out.
Proof.
  intros Hdev. revert acc out.
  induction names as [ | n names IH ]; intros acc out.
  - reflexivity.
  - cbn [feature_flags_into]. unfold mbind, M_bind.
    pose proof (silent_evaluation self n user out Hdev) as Hn.
    destruct (is_feature_enabled self n user out) as [[v | e] out'];
      simpl in Hn; subst out'; [ apply IH | reflexivity ].
Qed.

(** X13. With development mode off no method prints anything, whether it
    returns or raises. *)
Theorem nothing_printed_outside_dev_mode (self : FeatureFlagConfig)
    (name : string) (names : list string) (user : pyval)
    (out : list message) :
  _dev_mode self = false ->
  snd (is_feature_enabled self name user out) = out /\
  snd (is_any_feature_enabled self names user out) = out /\
  snd (are_all_features_enabled self names user out) = out /\
  snd (get_enabled_features self user out) = out /\
  snd (get_feature_flags self names user out) = out /\
  snd (feature_exists self name out) = out /\
  snd (get_all_feature_names self out) = out /\
  snd (get_feature_config self name out) = out.
Proof.
  intros Hdev.
  split; [ apply silent_evaluation, Hdev | ].
  split; [ apply silent_any, Hdev | ].
  split; [ apply silent_all, Hdev | ].
  split.
  { unfold get_enabled_features, get_all_feature_names.
    unfold mbind, M_bind, lift.
    destruct (py_get (_config self) "features" (PyDict []))
      as [features | e]; [ | reflexivity ].
    destruct (py_keys features) as [keys | e]; [ | reflexivity ].
    apply silent_enabled_among, Hdev. }
  split.
  { unfold get_feature_flags, mbind, M_bind, mret, M_ret.
    pose proof (silent_flags_into self names user [] out Hdev) as Hf.
    destruct (feature_flags_into self names user [] out) as [[d | e] out'];
      exact Hf. }
  split; [ apply feature_exists_prints_nothing | ].
  split.
  - unfold get_all_feature_names, mbind, M_bind, lift.
    destruct (py_get (_config self) "features" (PyDict [])); reflexivity.
  - unfold get_feature_config, mbind, M_bind, lift.
    destruct (py_get (_config self) "features" (PyDict [])); reflexivity.
Qed.

Lemma nothing_printed_outside_dev_mode_witness :
  let self := {| _config := _config Demo.config; _dev_mode := false |} in
  snd (is_feature_enabled self "admin_panel" Demo.admin_user []) = [] /\
  snd (is_any_feature_enabled self ["beta_feature"; "dark_mode"]
         Demo.admin_user []) = [] /\
  snd (are_all_features_enabled self ["beta_feature"; "dark_mode"]
         Demo.admin_user []) = [] /\
  snd (get_enabled_features self Demo.admin_user []) = [] /\
  snd (get_feature_flags self ["beta_feature"; "dark_mode"]
         Demo.admin_user []) = [] /\
  snd (feature_exists self "admin_panel" []) = [] /\
  snd (get_all_feature_names self []) = [] /\
  snd (get_feature_config self "admin_panel" []) = [].
Proof.
  intros self.
  apply (nothing_printed_outside_dev_mode self "admin_panel"
           ["beta_feature"; "dark_mode"] Demo.admin_user []).
  reflexivity.
Defined.

(** ** Loading *)

Example first_query_loads_the_default_file :
  Api.is_feature_enabled demo_runtime "admin_panel" Demo.admin_user
    {| global_config := None; stdout := [] |} =
  (Returned (PyBool true),
   {| global_config :=
        Some {| _config := PyDict [("features", PyDict Demo.features)];
                _dev_mode := false |};
      stdout := [] |}).
Proof. reflexivity. Qed.

Example missing_file_is_reported :
  load_feature_flags demo_runtime (Some "flags.yaml") None =
  (inl (FileNotFoundError "flags.yaml"), None).
Proof. reflexivity. Qed.

(** X14. [load_feature_flags] replaces the installed configuration only
    when it succeeds: after an exception the global is what it was, and
    after a return it holds the returned value, with the development mode
    read at that moment. *)
Theorem load_installs_only_on_success (rt : Runtime)
    (file_path : option string) (g : option FeatureFlagConfig) :
  match load_feature_flags rt file_path g with
  | (inl _, g') => g' = g
  | (inr config, g') =>
      g' = Some {| _config := config; _dev_mode := dev_mode_of rt |}
  end.
Proof.
  unfold load_feature_flags, __init__.
  repeat case_match; simplify_eq/=; reflexivity.
Qed.

Lemma or_else_nonempty (a : option string) (b : string) :
  b <> "" -> or_else a b <> "".
Proof.
  intros Hb. unfold or_else. destruct a as [s | ]; [ | exact Hb ].
  destruct (String.eqb_spec s ""); assumption.
Qed.

(** X15. When [load_feature_flags] raises [FileNotFoundError] for a path,
    no file exists at that path, [FFXL_CONFIG] held no configuration that
    parses (it was unset, empty or not JSON), the path is the argument
    when one was given, and it is never empty when none was. *)
Theorem file_not_found_means (rt : Runtime) (file_path : option string)
    (g : option FeatureFlagConfig) (path : string) :
  fst (load_feature_flags rt file_path g) = inl (FileNotFoundError path) ->
  path_exists rt path = false /\
  (forall s, getenv rt "FFXL_CONFIG" = Some s ->
             s = "" \/ json_loads rt s = None) /\
  (forall p, file_path = Some p -> path = p) /\
  (file_path = None -> path <> "").
Proof.
  unfold load_feature_flags.
  set (path0 := match file_path with
                | Some p => p
                | None => or_else _ _
                end).
  set (from_file := if path_exists rt path0 then _ else _).
  intros H.
  assert (Hfile : fst from_file = inl (FileNotFoundError path) ->
                  path_exists rt path = false /\ path = path0).
  { subst from_file. destruct (path_exists rt path0) eqn:Hex.
    - destruct (yaml_load_file rt path0); discriminate.
    - intros [= ->]. split; [ exact Hex | reflexivity ]. }
  assert (Hpath : (forall p, file_path = Some p -> path0 = p) /\
                  (file_path = None -> path0 <> "")).
  { subst path0. split.
    - intros p ->. reflexivity.
    - intros ->. apply or_else_nonempty, or_else_nonempty. discriminate. }
  assert (Hgoal : fst from_file = inl (FileNotFoundError path) ->
                  path_exists rt path = false /\
                  (forall p, file_path = Some p -> path = p) /\
                  (file_path = None -> path <> "")).
  { intros Hf. destruct (Hfile Hf) as [Hex ->].
    destruct Hpath as [Hp1 Hp2]. auto. }
  destruct (getenv rt "FFXL_CONFIG") as [s | ] eqn:Henv.
  - destruct (String.eqb_spec s "") as [ -> | Hs ].
    + destruct (Hgoal H) as (H1 & H2 & H3).
      repeat split; try assumption. intros s [= <-]. left. reflexivity.
    + destruct (json_loads rt s) as [config | ] eqn:Hjson;
        [ discriminate | ].
      destruct (Hgoal H) as (H1 & H2 & H3).
      repeat split; try assumption. intros s' [= <-]. right. exact Hjson.
  - destruct (Hgoal H) as (H1 & H2 & H3).
    repeat split; try assumption. intros s [=].
Qed.

Lemma file_not_found_means_witness :
  path_exists demo_runtime "flags.yaml" = false /\
  (forall s, getenv demo_runtime "FFXL_CONFIG" = Some s ->
             s = "" \/ json_loads demo_runtime s = None) /\
  (forall p, Some "flags.yaml" = Some p -> "flags.yaml" = p) /\
  (Some "flags.yaml" = None -> "flags.yaml" <> "").
Proof.
  apply (file_not_found_means demo_runtime (Some "flags.yaml") None
           "flags.yaml").
  reflexivity.
Defined.

Lemma load_feature_flags_cases (rt : Runtime) (file_path : option string)
    (g : option FeatureFlagConfig) :
  (exists e, load_feature_flags rt file_path g = (inl e, g)) \/
  (exists config,
      load_feature_flags rt file_path g =
      (inr config, Some (__init__ rt config))).
Proof.
  unfold load_feature_flags.
  repeat case_match; simplify_eq/=; eauto.
Qed.

(** X16. A configuration that parses as JSON in [FFXL_CONFIG] is what
    [load_feature_flags] returns and installs, whatever the [file_path]
    argument is and whether or not any file exists. *)
Theorem env_configuration_wins (rt : Runtime) (s : string)
    (config : pyval) (file_path : option string)
    (g : option FeatureFlagConfig) :
  getenv rt "FFXL_CONFIG" = Some s ->
  s <> "" ->
  json_loads rt s = Some config ->
  load_feature_flags rt file_path g =
  (inr config, Some (__init__ rt config)).
Proof.
  intros Henv Hs Hjson. unfold load_feature_flags.
  rewrite Henv, Hjson.
  destruct (String.eqb_spec s ""); [ contradiction | reflexivity ].
Qed.

Lemma env_configuration_wins_witness :
  let rt :=
    {| getenv := fun k =>
         if String.eqb k "FFXL_CONFIG" then Some "{}" else None;
       path_exists := fun _ => false;
       yaml_load_file := fun _ => None;
       json_loads := fun s =>
         if String.eqb s "{}" then Some (PyDict []) else None |} in
  load_feature_flags rt (Some "flags.yaml") None =
  (inr (PyDict []), Some (__init__ rt (PyDict []))).
Proof.
  intros rt.
  apply (env_configuration_wins rt "{}" (PyDict []) (Some "flags.yaml")
           None).
  - reflexivity.
  - discriminate.
  - reflexivity.
Defined.

(** X17. After a successful [load_feature_flags] every function of the
    module works on the configuration object built by that load: it is
    the method of that object, the global is left as it is, and the
    environment and the files of the moment of the call are not looked
    at (a changed [FFXL_DEV_MODE] or file has no effect until the next
    load). *)
Theorem loaded_configuration_is_reused (rt : Runtime)
    (file_path : option string) (g g' : option FeatureFlagConfig)
    (config : pyval) :
  load_feature_flags rt file_path g = (inr config, g') ->
  forall (A : Type) (method : FeatureFlagConfig -> M A) (rt' : Runtime)
         (out : list message),
    on_config method rt' {| global_config := g'; stdout := out |} =
    (outcome_of (fst (method (__init__ rt config) out)),
     {| global_config := g';
        stdout := snd (method (__init__ rt config) out) |}).
Proof.
  intros Hload A method rt' out.
  destruct (load_feature_flags_cases rt file_path g)
    as [ [e He] | [c Hc] ]; rewrite Hload in *; [ discriminate | ].
  injection Hc as -> ->.
  unfold on_config, _get_config. cbn [global_config stdout].
  destruct (method (__init__ rt c) out) as [r out']. reflexivity.
Qed.

Lemma loaded_configuration_is_reused_witness :
  let rt' :=
    {| getenv := fun k =>
         if String.eqb k "FFXL_DEV_MODE" then Some "true" else None;
       path_exists := fun _ => false;
       yaml_load_file := fun _ => None;
       json_loads := fun _ => None |} in
  let loaded :=
    __init__ demo_runtime (PyDict [("features", PyDict Demo.features)]) in
  on_config (fun c => is_feature_enabled c "admin_panel" Demo.admin_user)
    rt' {| global_config := Some loaded; stdout := [] |} =
  (outcome_of
     (fst (is_feature_enabled loaded "admin_panel" Demo.admin_user [])),
   {| global_config := Some loaded;
      stdout :=
        snd (is_feature_enabled loaded "admin_panel" Demo.admin_user
               []) |}).
Proof.
  intros rt' loaded.
  apply (loaded_configuration_is_reused demo_runtime None None
           (Some loaded) (PyDict [("features", PyDict Demo.features)])
           eq_refl pyval
           (fun c => is_feature_enabled c "admin_panel" Demo.admin_user)
           rt' []).
Defined.

(** X18. On a process without configuration a function of the module
    first runs [load_feature_flags()] without argument.  When that load
    raises, the exception comes out and the process is unchanged, so the
    next call tries again; when it returns, the method runs on the
    configuration just installed.  The function never fails on a
    configuration that is [None]. *)
Theorem first_query_loads (rt : Runtime) (A : Type)
    (method : FeatureFlagConfig -> M A) (out : list message) :
  on_config method rt {| global_config := None; stdout := out |} =
  match fst (load_feature_flags rt None None) with
  | inl e => (LoadFailed e, {| global_config := None; stdout := out |})
  | inr config =>
      (outcome_of (fst (method (__init__ rt config) out)),
       {| global_config := Some (__init__ rt config);
          stdout := snd (method (__init__ rt config) out) |})
  end.
Proof.
  unfold on_config, _get_config. cbn [global_config stdout].
  destruct (load_feature_flags_cases rt None None)
    as [ [e He] | [c Hc] ].
  - rewrite He. reflexivity.
  - rewrite Hc. cbn [fst].
    destruct (method (__init__ rt c) out) as [r out']. reflexivity.
Qed.

(** ** Identifiers are compared without conversion *)

(** X19. The allow-list is searched with [==]: when all its entries are
    numbers (as YAML reads unquoted digits), no user whose identifier is
    a string is let in, whatever the digits of that string. *)
Theorem numeric_ids_never_match_strings (self : FeatureFlagConfig)
    (name : string) (fs f : list (string * pyval)) (ids : list pyval)
    (user : pyval) (u : string) (out : list message) :
  features_mapping (_config self) = Some fs ->
  dict_get fs name = Some (PyDict f) ->
  dict_get f "onlyForUserIds" = Some (PyList ids) ->
  ids <> [] ->
  (forall x, In x ids -> exists n, x = PyInt n) ->
  extract_user_id user = Ok (PyStr u) ->
  fst (is_feature_enabled self name user out) = Ok (PyBool false).
Proof.
  intros Hm Hf Hids Hne Hnum Hu. rewrite is_feature_enabled_fst.
  rewrite (enabled_value_restricted self name fs f _ (PyStr u) user
             Hm Hf Hids);
    [ | destruct ids; [ congruence | reflexivity ] | exact Hu ].
  cbn [py_in]. do 2 f_equal.
  apply not_true_is_false. rewrite existsb_exists.
  intros (x & Hx & Heq). destruct (Hnum x Hx) as [n ->]. discriminate.
Qed.

Lemma numeric_ids_never_match_strings_witness :
  let self :=
    {| _config :=
         PyDict
           [("features",
              PyDict
                [("admin_panel",
                   PyDict [("onlyForUserIds", PyList [PyInt 123])])])];
       _dev_mode := false |} in
  fst (is_feature_enabled self "admin_panel" (PyUser (PyStr "123")) []) =
  Ok (PyBool false).
Proof.
  intros self.
  apply (numeric_ids_never_match_strings self "admin_panel"
           [("admin_panel", PyDict [("onlyForUserIds", PyList [PyInt 123])])]
           [("onlyForUserIds", PyList [PyInt 123])] [PyInt 123]
           (PyUser (PyStr "123")) "123" []).
  - reflexivity.
  - reflexivity.
  - reflexivity.
  - discriminate.
  - intros x [ <- | [] ]. exists 123. reflexivity.
  - reflexivity.
Defined.
